(** * Account endpoints: login, recovery, creation and administration

    A shallow embedding of [src/endpoints/users-public.js] and
    [src/endpoints/users-admin.js].  Every request handler is a function
    from the server state (persisted storage, the recovery-code cache and
    the two rate limiters) and a request to the new state and the
    response that is sent. *)

From stdpp Require Import gmap strings list fin_maps pretty sorting.

Set Warnings "-register-all".
Open Scope string_scope.
Open Scope Z_scope.

(** ** JavaScript values

    Request bodies are parsed JSON, responses are serialised JSON.  An
    absent field reads as [JUndefined].  Numbers are the integers. *)

Inductive jsval :=
  | JUndefined
  | JNull
  | JBool (b : bool)
  | JNum (n : Z)
  | JStr (s : string)
  | JArr (items : list jsval)
  | JObj (fields : list (string * jsval)).

(** ToBoolean: what [if (x)] and [!x] test. *)
Definition truthy (v : jsval) : bool :=
  match v with
  | JUndefined | JNull => false
  | JBool b => b
  | JNum n => negb (n =? 0)
  | JStr s => negb (String.eqb s "")
  | JArr _ | JObj _ => true
  end.

(** [a === b].  Arrays and objects compare by identity; the two sides of
    every comparison in the handlers come from different places (a parsed
    body on one side, a stored string on the other), so they are never
    the same object. *)
Definition strict_eq (a b : jsval) : bool :=
  match a, b with
  | JUndefined, JUndefined => true
  | JNull, JNull => true
  | JBool x, JBool y => Bool.eqb x y
  | JNum x, JNum y => x =? y
  | JStr x, JStr y => String.eqb x y
  | _, _ => false
  end.

(** Every string that occurs as a value somewhere inside a JSON value
    (property names are not values). *)
Fixpoint string_values (v : jsval) : list string :=
  match v with
  | JStr s => [s]
  | JArr items => flat_map string_values items
  | JObj fields => flat_map (fun kv => string_values (snd kv)) fields
  | _ => []
  end.

(** ** The expiring cache ([Cache] of [util.js])

    The class is imported from [../util.js], which is not among the
    sources; its operations follow section 4.1 of the specification.  A
    cache object is its time-to-live (milliseconds, fixed by the
    constructor) and its entries; the entries are the part that changes
    and the part that the server state holds. *)

Module Cache.

Record entry := Entry { value : string; expiry : Z }.

Abbreviation t := (gmap string entry).

(** Modelled from the spec: [Cache.set] of [../util.js], which is not
    among the sources.  [set(key, value)] stores the value with
    expiry = now + TTL, overwriting any entry of the key. *)
Definition set (ttl : Z) (c : t) (key value : string) (now : Z) : t :=
  <[key := Entry value (now + ttl)]> c.

(** Modelled from the spec: [Cache.get] of [../util.js], which is not
    among the sources.  [get(key)] returns the value if it is present and
    not expired, else a miss ([None]); an entry that has expired but was
    not swept is a miss.  An entry is expired from the instant of its
    expiry on. *)
Definition get (c : t) (key : string) (now : Z) : option string :=
  match c !! key with
  | Some e => if now <? expiry e then Some (value e) else None
  | None => None
  end.

(** Modelled from the spec: [Cache.remove] of [../util.js], which is not
    among the sources.  [remove(key)] deletes, and does nothing if the
    key is absent. *)
Definition remove (c : t) (key : string) : t := delete key c.

End Cache.

(** ** The rate limiter ([RateLimiterMemory] of rate-limiter-flexible)

    The package is not among the sources; its operations follow section
    4.2 of the specification, with the fixed window.  A limiter is its
    options (fixed by the constructor) and its buckets; the buckets are
    the part that changes and the part that the server state holds. *)

Module RateLimiter.

(** [points] per [duration] seconds. *)
Record opts := Opts { points : nat; duration : Z }.

(** Points consumed in the current window and the instant (ms) at which
    the window ends. *)
Record bucket := Bucket { consumed : nat; expires : Z }.

Abbreviation t := (gmap string bucket).

Definition live (b : bucket) (now : Z) : bool := now <? expires b.

(** The end of the window that a consumption at [now] falls into: the
    end of the running window, or [duration] seconds from now when this
    consumption opens a window. *)
Definition window_end (o : opts) (l : t) (key : string) (now : Z) : Z :=
  match l !! key with
  | Some b => if live b now then expires b else now + duration o * 1000
  | None => now + duration o * 1000
  end.

(** Modelled from the spec: the budget that a [RateLimiterMemory] of
    the package rate-limiter-flexible, which is not among the sources,
    has left for a key; a key with no activity, or whose window has
    elapsed, has the full budget. *)
Definition remaining (o : opts) (l : t) (key : string) (now : Z) : nat :=
  match l !! key with
  | Some b => if live b now then (points o - consumed b)%nat else points o
  | None => points o
  end.

(** Modelled from the spec: [RateLimiterMemory.consume] of the package
    rate-limiter-flexible, which is not among the sources.
    [consume(key)] takes one point; when the budget of the current
    window is used up it fails ([None], the promise rejects with a
    [RateLimiterRes]) and takes nothing. *)
Definition consume (o : opts) (l : t) (key : string) (now : Z) : option t :=
  match remaining o l key now with
  | O => None
  | S _ =>
      let b :=
        match l !! key with
        | Some b =>
            if live b now then Bucket (S (consumed b)) (expires b)
            else Bucket 1 (now + duration o * 1000)
        | None => Bucket 1 (now + duration o * 1000)
        end in
      Some (<[key := b]> l)
  end.

(** Modelled from the spec: [RateLimiterMemory.delete] of the package
    rate-limiter-flexible, which is not among the sources.
    [delete(key)] gives the key its full budget back at once. *)
Definition delete (l : t) (key : string) : t := base.delete key l.

(** The buckets after a call of [consume], accepted or not. *)
Definition after_consume (o : opts) (l : t) (key : string) (now : Z) : t :=
  match consume o l key now with Some l' => l' | None => l end.

(** [charged o l key e n]: the window of [key] runs at least until [e]
    and at least [n] points of its budget are gone. *)
Definition charged (o : opts) (l : t) (key : string) (e : Z) (n : nat) : Prop :=
  exists b, l !! key = Some b /\ e <= expires b /\
    (points o - consumed b <= points o - n)%nat.

End RateLimiter.

(** ** Account records ([User] of [users.js]) *)

Module User.

Record t := Make {
  handle : string;
  name : jsval;
  created : Z;
  password : string;
  salt : string;
  admin : bool;
  enabled : bool;
}.

Definition with_password (u : t) (password salt : string) : t :=
  Make (handle u) (name u) (created u) password salt (admin u) (enabled u).

Definition with_enabled (u : t) (enabled : bool) : t :=
  Make (handle u) (name u) (created u) (password u) (salt u) (admin u) enabled.

Definition with_admin (u : t) (admin : bool) : t :=
  Make (handle u) (name u) (created u) (password u) (salt u) admin (enabled u).

End User.

(** ** Requests, responses and the server state *)

Module Body.

(** The fields of [request.body] that the handlers read. *)
Record t := Make {
  handle : jsval;
  name : jsval;
  password : jsval;
  code : jsval;
  newPassword : jsval;
  purge : jsval;
}.

Definition with_password (b : t) (p : jsval) : t :=
  Make (handle b) (name b) p (code b) (newPassword b) (purge b).

End Body.

(** What a handler reads besides the state: [request.body], the source
    address ([getIpFromRequest(request)]), whether [request.session]
    exists, the handle of the authenticated caller
    ([request.user.profile.handle], set by the middleware of the
    administrative routes), and the values that the ambient calls give
    during this request: [Date.now()], [crypto.randomInt(1000, 9999)]
    and [getPasswordSalt()], and whether the calls that set up the data
    directories of a new account ([ensurePublicDirectoriesExist],
    [getUserDirectories], [checkForNewContent]) return, or one of them
    throws. *)
Record Request := {
  body : Body.t;
  ip : string;
  session : bool;
  profile_handle : string;
  now : Z;
  randomInt : Z;
  randomSalt : string;
  directoriesCreated : bool;
}.

(** The same request with another value (or none, [JUndefined]) in the
    password field of the body. *)
Definition with_password (req : Request) (p : jsval) : Request :=
  {| body := Body.with_password (body req) p; ip := ip req; session := session req;
     profile_handle := profile_handle req; now := now req;
     randomInt := randomInt req; randomSalt := randomSalt req;
     directoriesCreated := directoriesCreated req |}.

(** [response.sendStatus(c)] and [response.status(c).json(v)]
    ([response.json(v)] has status 200, [send] of an object is [json]). *)
Inductive Response :=
  | sendStatus (status : Z)
  | json (status : Z) (payload : jsval).

Definition status_of (r : Response) : Z :=
  match r with sendStatus c => c | json c _ => c end.

(** The body that is sent; [sendStatus] sends no JSON. *)
Definition payload_of (r : Response) : jsval :=
  match r with sendStatus _ => JUndefined | json _ v => v end.

Definition error (message : string) : jsval := JObj [("error", JStr message)].

(** The persisted storage that both routers share, and what changes of
    the module-level objects of [users-public.js]: the entries of
    [MFA_CACHE] and the buckets of the two limiters. *)
Record State := {
  storage : gmap string User.t;
  MFA_CACHE : Cache.t;
  loginLimiter : RateLimiter.t;
  recoverLimiter : RateLimiter.t;
}.

Definition DISCREET_LOGIN : bool := false.

(** [new Cache(5 * 60 * 1000)] *)
Definition MFA_CACHE_ttl : Z := 5 * 60 * 1000.

(** [new RateLimiterMemory({ points: 5, duration: 60 })] *)
Definition loginLimiter_opts : RateLimiter.opts :=
  {| RateLimiter.points := 5; RateLimiter.duration := 60 |}.

(** [new RateLimiterMemory({ points: 5, duration: 300 })] *)
Definition recoverLimiter_opts : RateLimiter.opts :=
  {| RateLimiter.points := 5; RateLimiter.duration := 300 |}.

(** The state of a server that has just started on the given storage. *)
Definition boot (users : gmap string User.t) : State :=
  {| storage := users; MFA_CACHE := ∅; loginLimiter := ∅; recoverLimiter := ∅ |}.

Definition set_storage (s : State) (m : gmap string User.t) : State :=
  {| storage := m; MFA_CACHE := MFA_CACHE s;
     loginLimiter := loginLimiter s; recoverLimiter := recoverLimiter s |}.

Definition set_MFA_CACHE (s : State) (c : Cache.t) : State :=
  {| storage := storage s; MFA_CACHE := c;
     loginLimiter := loginLimiter s; recoverLimiter := recoverLimiter s |}.

Definition set_loginLimiter (s : State) (l : RateLimiter.t) : State :=
  {| storage := storage s; MFA_CACHE := MFA_CACHE s;
     loginLimiter := l; recoverLimiter := recoverLimiter s |}.

Definition set_recoverLimiter (s : State) (l : RateLimiter.t) : State :=
  {| storage := storage s; MFA_CACHE := MFA_CACHE s;
     loginLimiter := loginLimiter s; recoverLimiter := l |}.

(** The answer of the login route to an address without budget. *)
Definition rate_limited_login : Response :=
  json 429 (error "Too many attempts. Try again later or recover your password.").

(** The answer of the recovery routes to an address without budget. *)
Definition rate_limited_recover : Response :=
  json 429 (error "Too many attempts. Try again later or contact your admin.").

(** A cache read as the handlers see it: the stored string, or [null]. *)
Definition cached (o : option string) : jsval :=
  match o with Some v => JStr v | None => JNull end.

(** [String.prototype.startsWith]. *)
Fixpoint startsWith (s p : string) : bool :=
  match p, s with
  | EmptyString, _ => true
  | String c p', String d s' => if Ascii.eqb c d then startsWith s' p' else false
  | String _ _, EmptyString => false
  end.

Section Handlers.

(** What the routers import from [../users.js], [../constants.js] and
    lodash, none of which is among the sources. *)

(** [KEY_PREFIX], and [toKey(handle)], the storage key of a handle. *)
Variable KEY_PREFIX : string.
Variable toKey : jsval -> string.
(** [getPasswordHash(password, salt)]; [None] when the call throws. *)
Variable getPasswordHash : jsval -> string -> option string.
(** [getAllUserHandles()], a reading of the storage. *)
Variable getAllUserHandles : gmap string User.t -> list string.
(** [lodash.kebabCase(String(v).toLowerCase().trim())]. *)
Variable slug : jsval -> string.
(** [DEFAULT_USER.handle]. *)
Variable DEFAULT_USER_handle : string.

(** [storage.values(x => x.key.startsWith(KEY_PREFIX))] *)
Definition user_values (m : gmap string User.t) : list User.t :=
  (map_to_list (filter (fun kv => startsWith (fst kv) KEY_PREFIX = true) m)).*2.

(** [router.post('/list')] *)
Definition post_list (s : State) (req : Request) : State * Response :=
  if DISCREET_LOGIN then (s, sendStatus 204)
  else
    let users := user_values (storage s) in
    let enabledUsers := List.filter User.enabled users in
    (s, json 200 (JObj [("total", JNum (Z.of_nat (length users)));
                        ("enabled", JNum (Z.of_nat (length enabledUsers)))])).

(** [router.get('/count')] *)
Definition get_count (s : State) (req : Request) : State * Response :=
  if DISCREET_LOGIN then (s, sendStatus 204)
  else
    let users := user_values (storage s) in
    let enabledUsers := List.filter User.enabled users in
    (s, json 200 (JObj [("total", JNum (Z.of_nat (length users)));
                        ("enabled", JNum (Z.of_nat (length enabledUsers)))])).

(** [router.post('/login')].  The middle component is the handle that
    is written to [request.session.handle]. *)
Definition post_login (s : State) (req : Request) : State * option string * Response :=
  if negb (truthy (Body.handle (body req))) then
    (s, None, json 400 (error "Missing required fields"))
  else
    match RateLimiter.consume loginLimiter_opts (loginLimiter s) (ip req) (now req) with
    | None =>
        (s, None, rate_limited_login)
    | Some limiter =>
        let s := set_loginLimiter s limiter in
        match storage s !! toKey (Body.handle (body req)) with
        | None => (s, None, json 403 (error "Incorrect credentials"))
        | Some user =>
            if negb (User.enabled user) then
              (s, None, json 403 (error "User is disabled"))
            else
              let check :=
                if String.eqb (User.password user) "" then Some false
                else
                  match getPasswordHash (Body.password (body req)) (User.salt user) with
                  | Some h => Some (negb (String.eqb (User.password user) h))
                  | None => None
                  end in
              match check with
              | None => (s, None, sendStatus 500)
              | Some true => (s, None, json 403 (error "Incorrect credentials"))
              | Some false =>
                  if negb (session req) then (s, None, sendStatus 500)
                  else
                    (set_loginLimiter s (RateLimiter.delete (loginLimiter s) (ip req)),
                     Some (User.handle user),
                     json 200 (JObj [("handle", JStr (User.handle user))]))
              end
        end
    end.

(** [router.post('/recover-step1')] *)
Definition post_recover_step1 (s : State) (req : Request) : State * Response :=
  if negb (truthy (Body.handle (body req))) then
    (s, json 400 (error "Missing required fields"))
  else
    match RateLimiter.consume recoverLimiter_opts (recoverLimiter s) (ip req) (now req) with
    | None =>
        (s, rate_limited_recover)
    | Some limiter =>
        let s := set_recoverLimiter s limiter in
        match storage s !! toKey (Body.handle (body req)) with
        | None => (s, json 404 (error "User not found"))
        | Some user =>
            if negb (User.enabled user) then
              (s, json 403 (error "User is disabled"))
            else
              (* String(crypto.randomInt(1000, 9999)): the decimal form *)
              let mfaCode := pretty (randomInt req) in
              (set_MFA_CACHE s (Cache.set MFA_CACHE_ttl (MFA_CACHE s) (User.handle user) mfaCode (now req)),
               sendStatus 204)
        end
    end.

(** [router.post('/recover-step2')] *)
Definition post_recover_step2 (s : State) (req : Request) : State * Response :=
  if negb (truthy (Body.handle (body req))) || negb (truthy (Body.code (body req))) then
    (s, json 400 (error "Missing required fields"))
  else
    match storage s !! toKey (Body.handle (body req)) with
    | None => (s, json 404 (error "User not found"))
    | Some user =>
        if negb (User.enabled user) then
          (s, json 403 (error "User is disabled"))
        else
          let mfaCode := Cache.get (MFA_CACHE s) (User.handle user) (now req) in
          if negb (strict_eq (Body.code (body req)) (cached mfaCode)) then
            match RateLimiter.consume recoverLimiter_opts (recoverLimiter s) (ip req) (now req) with
            | None =>
                (s, rate_limited_recover)
            | Some limiter =>
                (set_recoverLimiter s limiter, json 403 (error "Incorrect code"))
            end
          else
            let updated :=
              if truthy (Body.newPassword (body req)) then
                let salt := randomSalt req in
                match getPasswordHash (Body.newPassword (body req)) salt with
                | Some h => Some (User.with_password user h salt)
                | None => None
                end
              else Some (User.with_password user "" "") in
            match updated with
            | None => (s, sendStatus 500)
            | Some user =>
                let s := set_storage s (<[toKey (JStr (User.handle user)) := user]> (storage s)) in
                let s := set_recoverLimiter s (RateLimiter.delete (recoverLimiter s) (ip req)) in
                let s := set_MFA_CACHE s (Cache.remove (MFA_CACHE s) (User.handle user)) in
                (s, sendStatus 204)
            end
    end.

(** [router.post('/create')].  The data directories of the account are
    set up after the record is stored, inside the same [try]: when one of
    these calls throws, the answer is 500 and the record stays stored. *)
Definition post_create (s : State) (req : Request) : State * Response :=
  if negb (truthy (Body.handle (body req))) || negb (truthy (Body.name (body req))) then
    (s, json 400 (error "Missing required fields"))
  else
    let handles := getAllUserHandles (storage s) in
    let isFirstUser := (length handles =? 0)%nat in
    let handle := slug (Body.handle (body req)) in
    if String.eqb handle "" then
      (s, json 400 (error "Invalid handle"))
    else if existsb (String.eqb handle) handles then
      (s, json 409 (error "User already exists"))
    else
      let salt := randomSalt req in
      let password :=
        if truthy (Body.password (body req))
        then getPasswordHash (Body.password (body req)) salt
        else Some "" in
      match password with
      | None => (s, sendStatus 500)
      | Some password =>
          let newUser :=
            {| User.handle := handle;
               User.name :=
                 if truthy (Body.name (body req)) then Body.name (body req)
                 else JStr "Anonymous";
               User.created := now req;
               User.password := password;
               User.salt := salt;
               User.admin := isFirstUser;
               User.enabled := true |} in
          let s' := set_storage s (<[toKey (JStr handle) := newUser]> (storage s)) in
          if directoriesCreated req
          then (s', json 200 (JObj [("handle", JStr (User.handle newUser))]))
          else (s', sendStatus 500)
      end.

(** The routes of [users-admin.js] below run behind
    [requireAdminMiddleware]: the caller is an authenticated
    administrator and [request.user.profile] is their record. *)

(** [router.post('/disable')] *)
Definition post_disable (s : State) (req : Request) : State * Response :=
  if negb (truthy (Body.handle (body req))) then
    (s, json 400 (error "Missing required fields"))
  else if strict_eq (Body.handle (body req)) (JStr (profile_handle req)) then
    (s, json 400 (error "Cannot disable yourself"))
  else
    match storage s !! toKey (Body.handle (body req)) with
    | None => (s, json 404 (error "User not found"))
    | Some user =>
        (set_storage s (<[toKey (Body.handle (body req)) := User.with_enabled user false]> (storage s)),
         sendStatus 204)
    end.

(** [router.post('/enable')] *)
Definition post_enable (s : State) (req : Request) : State * Response :=
  if negb (truthy (Body.handle (body req))) then
    (s, json 400 (error "Missing required fields"))
  else
    match storage s !! toKey (Body.handle (body req)) with
    | None => (s, json 404 (error "User not found"))
    | Some user =>
        (set_storage s (<[toKey (Body.handle (body req)) := User.with_enabled user true]> (storage s)),
         sendStatus 204)
    end.

(** [router.post('/promote')] *)
Definition post_promote (s : State) (req : Request) : State * Response :=
  if negb (truthy (Body.handle (body req))) then
    (s, json 400 (error "Missing required fields"))
  else
    match storage s !! toKey (Body.handle (body req)) with
    | None => (s, json 404 (error "User not found"))
    | Some user =>
        (set_storage s (<[toKey (Body.handle (body req)) := User.with_admin user true]> (storage s)),
         sendStatus 204)
    end.

(** [router.post('/demote')] *)
Definition post_demote (s : State) (req : Request) : State * Response :=
  if negb (truthy (Body.handle (body req))) then
    (s, json 400 (error "Missing required fields"))
  else if strict_eq (Body.handle (body req)) (JStr (profile_handle req)) then
    (s, json 400 (error "Cannot demote yourself"))
  else
    match storage s !! toKey (Body.handle (body req)) with
    | None => (s, json 404 (error "User not found"))
    | Some user =>
        (set_storage s (<[toKey (Body.handle (body req)) := User.with_admin user false]> (storage s)),
         sendStatus 204)
    end.

(** [router.post('/delete')].  Purging the data directories
    ([fsPromises.rm] with [force]) belongs to the file system and is taken
    to return, like the calls of the storage. *)
Definition post_delete (s : State) (req : Request) : State * Response :=
  if negb (truthy (Body.handle (body req))) then
    (s, json 400 (error "Missing required fields"))
  else if strict_eq (Body.handle (body req)) (JStr (profile_handle req)) then
    (s, json 400 (error "Cannot delete yourself"))
  else if strict_eq (Body.handle (body req)) (JStr DEFAULT_USER_handle) then
    (s, json 400 (error "Sorry, but the default user cannot be deleted. It is required as a fallback."))
  else
    (set_storage s (delete (toKey (Body.handle (body req))) (storage s)),
     sendStatus 204).

(** A sequence of login requests, handled one after the other; the
    responses come back in the order of the requests. *)
Fixpoint logins (s : State) (reqs : list Request) : State * list Response :=
  match reqs with
  | [] => (s, [])
  | req :: reqs =>
      let '(s1, _, r) := post_login s req in
      let '(s2, rs) := logins s1 reqs in
      (s2, r :: rs)
  end.

End Handlers.

(** ** An instance of the imports

    Stand-ins for what [users.js], [constants.js] and lodash provide, used
    to run the handlers on concrete requests.  Handles are strings that are
    already in kebab case. *)

Module Instance.

Definition KEY_PREFIX : string := "user:".

(** [String(v)]; an array gives its elements joined by commas, [null]
    and [undefined] among them giving the empty string. *)
Fixpoint ToString (v : jsval) : string :=
  match v with
  | JStr s => s
  | JNum n => pretty n
  | JBool true => "true"
  | JBool false => "false"
  | JNull => "null"
  | JUndefined => "undefined"
  | JArr items =>
      (fix join (l : list jsval) : string :=
         match l with
         | [] => ""
         | x :: l' =>
             String.append
               match x with JNull | JUndefined => "" | _ => ToString x end
               match l' with [] => "" | _ :: _ => String.append "," (join l') end
         end) items
  | JObj _ => "[object Object]"
  end.

Definition toKey (handle : jsval) : string := String.append KEY_PREFIX (ToString handle).

(** Hashing needs a string ([password.normalize()] throws otherwise). *)
Definition getPasswordHash (password : jsval) (salt : string) : option string :=
  match password with
  | JStr p => Some (String.append "H(" (String.append p (String.append "," (String.append salt ")"))))
  | _ => None
  end.

Definition getAllUserHandles (m : gmap string User.t) : list string :=
  User.handle <$> user_values KEY_PREFIX m.

Definition slug (v : jsval) : string := ToString v.

Definition DEFAULT_USER_handle : string := "default-user".

Definition login := post_login toKey getPasswordHash.
Definition recover1 := post_recover_step1 toKey.
Definition recover2 := post_recover_step2 toKey getPasswordHash.
Definition create := post_create toKey getPasswordHash getAllUserHandles slug.

Definition alice : User.t :=
  {| User.handle := "alice"; User.name := JStr "Alice"; User.created := 1;
     User.password := "H(secret,na)"; User.salt := "na";
     User.admin := true; User.enabled := true |}.

(** A disabled account. *)
Definition bob : User.t :=
  {| User.handle := "bob"; User.name := JStr "Bob"; User.created := 2;
     User.password := "H(hunter2,nb)"; User.salt := "nb";
     User.admin := false; User.enabled := false |}.

(** An account without a password. *)
Definition guest : User.t :=
  {| User.handle := "guest"; User.name := JStr "Guest"; User.created := 3;
     User.password := ""; User.salt := "";
     User.admin := false; User.enabled := true |}.

Definition users : gmap string User.t :=
  <[toKey (JStr "alice") := alice]>
    (<[toKey (JStr "bob") := bob]> (<[toKey (JStr "guest") := guest]> ∅)).

(** A request at instant [t] from address 10.0.0.7, by the
    administrator alice where the route is an administrative one;
    [n] is what [crypto.randomInt] gives during the request. *)
Definition request_drawing (b : Body.t) (t : Z) (n : Z) : Request :=
  {| body := b; ip := "10.0.0.7"; session := true; profile_handle := "alice";
     now := t; randomInt := n; randomSalt := "c2FsdHNhbHRzYWx0c2FsdA==";
     directoriesCreated := true |}.

Definition request (b : Body.t) (t : Z) : Request := request_drawing b t 4821.

Definition with_handle (h : string) : Body.t :=
  {| Body.handle := JStr h; Body.name := JUndefined; Body.password := JUndefined;
     Body.code := JUndefined; Body.newPassword := JUndefined; Body.purge := JUndefined |}.

(** The body of a request that creates an account without password. *)
Definition with_name (h n : string) : Body.t :=
  {| Body.handle := JStr h; Body.name := JStr n; Body.password := JUndefined;
     Body.code := JUndefined; Body.newPassword := JUndefined; Body.purge := JUndefined |}.

Definition with_code (h c : string) : Body.t :=
  {| Body.handle := JStr h; Body.name := JUndefined; Body.password := JUndefined;
     Body.code := JStr c; Body.newPassword := JUndefined; Body.purge := JUndefined |}.

(** Five logins with handles that no account has, ten seconds apart,
    and a sixth within the same minute. *)
Definition first_attempt : Request := request (with_handle "h1") 0.
Definition more_attempts : list Request :=
  [request (with_handle "h2") 10000; request (with_handle "h3") 20000;
   request (with_handle "h4") 30000; request (with_handle "h5") 40000].
Definition sixth_attempt : Request := request (with_handle "h6") 59999.

Definition login_unknown : Request := request (with_handle "nobody") 0.
Definition login_disabled : Request := request (with_handle "bob") 0.
Definition login_guest : Request := request (with_handle "guest") 0.

Definition create_carol : Request := request (with_name "carol" "Carol") 1000.

(** Recovery of alice: the code 4821 is issued at instant 0; a second
    issuance at 1000 draws 7310, or 4821 again. *)
Definition issue : Request := request_drawing (with_handle "alice") 0 4821.
Definition issue_again : Request := request_drawing (with_handle "alice") 1000 7310.
Definition issue_same : Request := request_drawing (with_handle "alice") 1000 4821.
Definition verify (t : Z) : Request := request (with_code "alice" "4821") t.
Definition verify_wrong : Request := request (with_code "alice" "0000") 2000.

Definition issued : State := (recover1 (boot users) issue).1.
Definition issued_again : State := (recover1 issued issue_again).1.
Definition issued_same : State := (recover1 issued issue_same).1.

(** The state after [k] wrong codes for alice that follow the issuance,
    all from the address of the issuance, which took the first of its five
    points. *)
Definition refused (k : nat) : State :=
  Nat.iter k (fun s => (recover2 s verify_wrong).1) issued.

(** Another storage with as many accounts, and as many enabled ones. *)
Definition dave : User.t :=
  {| User.handle := "dave"; User.name := JStr "Dave"; User.created := 7;
     User.password := "H(pw,nd)"; User.salt := "nd";
     User.admin := false; User.enabled := true |}.
Definition other_users : gmap string User.t :=
  <[toKey (JStr "dave") := dave]>
    (<[toKey (JStr "bob") := bob]> (<[toKey (JStr "guest") := guest]> ∅)).

Definition delete_self : Request := request (with_handle "alice") 0.
Definition delete_default : Request := request (with_handle "default-user") 0.

End Instance.

(** ** Notions for the further properties *)

(** The same request, with another value drawn by [crypto.randomInt]. *)
Definition with_randomInt (req : Request) (n : Z) : Request :=
  {| body := body req; ip := ip req; session := session req;
     profile_handle := profile_handle req; now := now req;
     randomInt := n; randomSalt := randomSalt req;
     directoriesCreated := directoriesCreated req |}.

(** The same request, with another outcome of the set-up of the data
    directories. *)
Definition with_directoriesCreated (req : Request) (b : bool) : Request :=
  {| body := body req; ip := ip req; session := session req;
     profile_handle := profile_handle req; now := now req;
     randomInt := randomInt req; randomSalt := randomSalt req;
     directoriesCreated := b |}.

(** A sequence of requests to one route, handled one after the other. *)
Fixpoint run (route : State -> Request -> State * Response)
    (s : State) (reqs : list Request) : State * list Response :=
  match reqs with
  | [] => (s, [])
  | req :: reqs =>
      let '(s1, r) := route s req in
      let '(s2, rs) := run route s1 reqs in
      (s2, r :: rs)
  end.

(** Every record is stored under the key of its own handle. *)
Definition store_consistent (toKey : jsval -> string) (m : gmap string User.t) : Prop :=
  forall k u, m !! k = Some u -> k = toKey (JStr (User.handle u)).

(** What a route that sets one flag does: on 204 the record under the key
    of the requested handle is rewritten by [f], otherwise nothing
    changes. *)
Definition flag_route_spec (toKey : jsval -> string)
    (route : State -> Request -> State * Response) (f : User.t -> User.t) : Prop :=
  forall s req,
    ((route s req).2 = sendStatus 204 /\
     exists u, storage s !! toKey (Body.handle (body req)) = Some u /\
       (route s req).1 =
         set_storage s (<[toKey (Body.handle (body req)) := f u]> (storage s))) \/
    ((route s req).2 <> sendStatus 204 /\ (route s req).1 = s).

(** [s'] is [s], except that the record under the key of the handle that
    [req] names may have been rewritten by [f]. *)
Definition rewrites_at_most (toKey : jsval -> string) (f : User.t -> User.t)
    (s : State) (req : Request) (s' : State) : Prop :=
  MFA_CACHE s' = MFA_CACHE s /\ loginLimiter s' = loginLimiter s /\
  recoverLimiter s' = recoverLimiter s /\
  forall k,
    storage s' !! k = storage s !! k \/
    (k = toKey (Body.handle (body req)) /\
     exists u, storage s !! k = Some u /\ storage s' !! k = Some (f u)).

(** ** The listing of the accounts ([router.post('/get')] of [users-admin.js]) *)

Module Query.

(** The fields of [request.body] that the listing reads. *)
Record t := Make {
  page : jsval;
  pageSize : jsval;
  searchQuery : jsval;
}.

End Query.

Module ViewModel.

(** The object that the listing builds for an account; [password] tells
    whether there is a hash, [avatar] is what [getUserAvatar] gives. *)
Record t := Make {
  handle : string;
  name : jsval;
  avatar : jsval;
  admin : bool;
  enabled : bool;
  created : Z;
  password : bool;
}.

Definition to_json (v : t) : jsval :=
  JObj [("handle", JStr (handle v)); ("name", name v); ("avatar", avatar v);
        ("admin", JBool (admin v)); ("enabled", JBool (enabled v));
        ("created", JNum (created v)); ("password", JBool (password v))].

End ViewModel.

Module Listing.

(** The object that the listing answers with. *)
Record t := Make {
  users : list ViewModel.t;
  total : Z;
  page : Z;
  pageSize : Z;
  totalPages : Z;
}.

Definition to_json (l : t) : jsval :=
  JObj [("users", JArr (map ViewModel.to_json (users l)));
        ("total", JNum (total l)); ("page", JNum (page l));
        ("pageSize", JNum (pageSize l)); ("totalPages", JNum (totalPages l))].

End Listing.

(** [String.prototype.includes]: [sub] occurs somewhere in [s]. *)
Fixpoint includes (s sub : string) : bool :=
  startsWith s sub ||
  match s with
  | EmptyString => false
  | String _ s' => includes s' sub
  end.

(** [Array.prototype.slice(start, end)]: a negative index counts from the
    end, and both are clamped to the array. *)
Definition slice {A} (l : list A) (start end_ : Z) : list A :=
  let len := Z.of_nat (length l) in
  let k := if start <? 0 then Z.max (len + start) 0 else Z.min start len in
  let final := if end_ <? 0 then Z.max (len + end_) 0 else Z.min end_ len in
  take (Z.to_nat (final - k)) (drop (Z.to_nat k) l).

(** [Math.ceil(a / b)] for integers, [b] not zero. *)
Definition ceil_div (a b : Z) : Z := - ((- a) / b).

(** [viewModels.sort((x, y) => (x.created ?? 0) - (y.created ?? 0))].
    Every record carries a number as [created] ([User.created], which
    [/create] sets to [Date.now()]), so the default 0 is never taken.  The
    sort is stable: an element stays behind the elements of the same
    creation time that were before it. *)
Fixpoint insert_by_created (v : ViewModel.t) (l : list ViewModel.t) : list ViewModel.t :=
  match l with
  | [] => [v]
  | w :: l' =>
      if ViewModel.created w <? ViewModel.created v
      then w :: insert_by_created v l'
      else v :: l
  end.

Definition sort_by_created (l : list ViewModel.t) : list ViewModel.t :=
  foldr insert_by_created [] l.

(** The order of the listing: not created later. *)
Definition by_created (x y : ViewModel.t) : Prop :=
  ViewModel.created x <= ViewModel.created y.

Section ListingRoute.

(** [KEY_PREFIX] and [getUserAvatar] of [../users.js], which is not among
    the sources, and the built-ins [parseInt] ([None] is NaN) and
    [String.prototype.toLowerCase]. *)
Variable KEY_PREFIX : string.
Variable getUserAvatar : string -> jsval.
Variable parseInt : jsval -> option Z.
Variable toLowerCase : string -> string.

(** [parseInt(v) || fallback] *)
Definition parseInt_or (v : jsval) (fallback : Z) : Z :=
  match parseInt v with
  | Some n => if n =? 0 then fallback else n
  | None => fallback
  end.

Definition view_model (user : User.t) : ViewModel.t :=
  {| ViewModel.handle := User.handle user;
     ViewModel.name := User.name user;
     ViewModel.avatar := getUserAvatar (User.handle user);
     ViewModel.admin := User.admin user;
     ViewModel.enabled := User.enabled user;
     ViewModel.created := User.created user;
     ViewModel.password := negb (String.eqb (User.password user) "") |}.

(** The view models of all accounts, sorted; the accounts come in the
    order in which the storage enumerates them. *)
Definition viewModels (s : State) : list ViewModel.t :=
  sort_by_created (map view_model (user_values KEY_PREFIX (storage s))).

(** The test of the search filter on one account; [None] when it throws
    ([toLowerCase] of a name or of a query that is not a string). *)
Definition matches (searchQuery : jsval) (user : ViewModel.t) : option bool :=
  match ViewModel.name user, searchQuery with
  | JStr name, JStr query =>
      Some (includes (toLowerCase name) (toLowerCase query) ||
            includes (toLowerCase (ViewModel.handle user)) (toLowerCase query))
  | _, _ => None
  end.

(** [viewModels.filter(user => ...)]; [None] when a test throws. *)
Fixpoint filter_matching (searchQuery : jsval) (l : list ViewModel.t)
    : option (list ViewModel.t) :=
  match l with
  | [] => Some []
  | user :: l' =>
      match matches searchQuery user with
      | None => None
      | Some keep =>
          match filter_matching searchQuery l' with
          | None => None
          | Some rest => Some (if keep then user :: rest else rest)
          end
      end
  end.

(** [searchQuery ? viewModels.filter(...) : viewModels] *)
Definition filteredUsers (s : State) (searchQuery : jsval) : option (list ViewModel.t) :=
  if truthy searchQuery then filter_matching searchQuery (viewModels s)
  else Some (viewModels s).

(** The object of the response; [None] when the filter throws. *)
Definition listing (s : State) (q : Query.t) : option Listing.t :=
  let page := parseInt_or (Query.page q) 1 in
  let pageSize := parseInt_or (Query.pageSize q) 20 in
  let searchQuery :=
    if truthy (Query.searchQuery q) then Query.searchQuery q else JStr "" in
  match filteredUsers s searchQuery with
  | None => None
  | Some filteredUsers =>
      let start := (page - 1) * pageSize in
      let end_ := start + pageSize in
      let paginatedUsers := slice filteredUsers start end_ in
      Some {| Listing.users := paginatedUsers;
              Listing.total := Z.of_nat (length filteredUsers);
              Listing.page := page;
              Listing.pageSize := pageSize;
              Listing.totalPages := ceil_div (Z.of_nat (length filteredUsers)) pageSize |}
  end.

(** [router.post('/get')], behind [requireAdminMiddleware]. *)
Definition post_get (s : State) (q : Query.t) : State * Response :=
  match listing s q with
  | Some l => (s, json 200 (Listing.to_json l))
  | None => (s, sendStatus 500)
  end.

End ListingRoute.

(** ** The page buttons of the administration panel
    ([renderPagination] in [openAdminPanel] of [public/scripts/user.js]) *)

Module Pagination.

Inductive kind :=
  | Prev
  | Next
  | Page (n : Z)
  | Ellipsis.

(** A child of the pagination container: what it shows, whether it has
    the classes [disabled] and [active], and what a click on it makes of
    [currentPage] while nothing is loading ([None]: the click changes
    nothing). *)
Record button := Button {
  shows : kind;
  disabled : bool;
  active : bool;
  click : option Z;
}.

(** The children of the container, from left to right, for the current
    page and the page count of the last response. *)
Definition renderPagination (currentPage totalPages : Z) : list button :=
  let prevButton :=
    Button Prev (currentPage =? 1) false
      (if currentPage >? 1 then Some (currentPage - 1) else None) in
  let firstPage :=
    if currentPage >? 3 then
      Button (Page 1) false false (Some 1)
        :: (if currentPage >? 4 then [Button Ellipsis true false None] else [])
    else [] in
  let lo := Z.max 1 (currentPage - 2) in
  let hi := Z.min totalPages (currentPage + 2) in
  let pageButtons :=
    (fun i => Button (Page i) false (i =? currentPage)
                (if i =? currentPage then None else Some i))
      <$> seqZ lo (hi - lo + 1) in
  let lastPage :=
    if currentPage <? totalPages - 2 then
      ((if currentPage <? totalPages - 3 then [Button Ellipsis true false None] else [])
         ++ [Button (Page totalPages) false false (Some totalPages)])%list
    else [] in
  let nextButton :=
    Button Next (currentPage =? totalPages) false
      (if currentPage <? totalPages then Some (currentPage + 1) else None) in
  (prevButton :: firstPage ++ pageButtons ++ lastPage ++ [nextButton])%list.

(** The page numbers that are shown, from left to right. *)
Definition page_numbers (buttons : list button) : list Z :=
  omap (fun b => if shows b is Page n then Some n else None) buttons.

End Pagination.

(** ** Concrete requests for the further properties

    More stand-ins for built-ins and imports that are not among the
    sources, and the requests and states on which the further properties
    are run. *)

Module Sample.

(** [parseInt] on numbers; other values read as NaN. *)
Definition parseInt (v : jsval) : option Z :=
  match v with JNum n => Some n | _ => None end.

(** [toLowerCase] on the letters A to Z. *)
Definition lower (c : Ascii.ascii) : Ascii.ascii :=
  let n := Ascii.nat_of_ascii c in
  if ((65 <=? n) && (n <=? 90))%nat then Ascii.ascii_of_nat (n + 32) else c.

Fixpoint toLowerCase (s : string) : string :=
  match s with
  | EmptyString => EmptyString
  | String c s' => String (lower c) (toLowerCase s')
  end.

Definition getUserAvatar (handle : string) : jsval := JStr "img/ai4.png".

Definition get := post_get Instance.KEY_PREFIX getUserAvatar parseInt toLowerCase.
Definition list_accounts := listing Instance.KEY_PREFIX getUserAvatar parseInt toLowerCase.
Definition disable := post_disable Instance.toKey.
Definition enable := post_enable Instance.toKey.
Definition delete := post_delete Instance.toKey Instance.DEFAULT_USER_handle.

(** Page [p] of size [n], without and with a search. *)
Definition page (p n : Z) : Query.t := Query.Make (JNum p) (JNum n) JUndefined.
Definition search (p n : Z) (query : string) : Query.t :=
  Query.Make (JNum p) (JNum n) (JStr query).

Definition with_credentials (h p : string) : Body.t :=
  {| Body.handle := JStr h; Body.name := JUndefined; Body.password := JStr p;
     Body.code := JUndefined; Body.newPassword := JUndefined; Body.purge := JUndefined |}.

Definition with_reset (h c p : string) : Body.t :=
  {| Body.handle := JStr h; Body.name := JUndefined; Body.password := JUndefined;
     Body.code := JStr c; Body.newPassword := JStr p; Body.purge := JUndefined |}.

Definition with_account (h : string) (n : jsval) (p : string) : Body.t :=
  {| Body.handle := JStr h; Body.name := n; Body.password := JStr p;
     Body.code := JUndefined; Body.newPassword := JUndefined; Body.purge := JUndefined |}.

Definition login_alice : Request := Instance.request (with_credentials "alice" "secret") 0.
Definition login_alice_fresh : Request := Instance.request (with_credentials "alice" "fresh") 2000.
Definition reset_alice : Request := Instance.request (with_reset "alice" "4821" "fresh") 1000.
Definition wrong_code (t : Z) : Request := Instance.request (Instance.with_code "alice" "0000") t.
Definition unknown : Request := Instance.request (Instance.with_code "nobody" "0000") 0.
Definition name_guest : Request := Instance.request (Instance.with_handle "guest") 0.
Definition login_guest_later : Request := Instance.request (Instance.with_handle "guest") 5000.

(** A recovery limiter in which the address has used up its budget. *)
Definition exhausted : gmap string RateLimiter.bucket :=
  {[ "10.0.0.7" := RateLimiter.Bucket 5 300000 ]}.

Definition create_dora : Request := Instance.request (with_account "dora" (JStr "Dora") "pw") 1000.
Definition login_dora : Request := Instance.request (with_credentials "dora" "pw") 2000.
Definition create_alice : Request := Instance.request (with_account "alice" (JStr "Al") "pw") 1000.
(** An account whose name is the number 7. *)
Definition create_seven : Request := Instance.request (with_account "seven" (JNum 7) "pw") 1000.

(** The code 4821 is issued for guest, guest is deleted and created
    again, and the code is presented. *)
Definition issue_guest : Request := Instance.request_drawing (Instance.with_handle "guest") 0 4821.
Definition create_guest : Request := Instance.request (with_account "guest" (JStr "Guest") "pw") 2000.
Definition verify_guest : Request := Instance.request (Instance.with_code "guest" "4821") 3000.

(** What the listing answers on the sample storage: the first page of
    size 20, the second page of size 2, the search for "AL", the first
    page of size -1, and all view models. *)
Definition no_listing : Listing.t := Listing.Make [] 0 0 0 0.
Definition first_page : Listing.t :=
  Eval vm_compute in default no_listing (list_accounts (boot Instance.users) (page 1 20)).
Definition second_page : Listing.t :=
  Eval vm_compute in default no_listing (list_accounts (boot Instance.users) (page 2 2)).
Definition found_al : Listing.t :=
  Eval vm_compute in default no_listing (list_accounts (boot Instance.users) (search 1 20 "AL")).
Definition all_but_last : Listing.t :=
  Eval vm_compute in default no_listing (list_accounts (boot Instance.users) (page 1 (-1))).
Definition everyone : list ViewModel.t :=
  Eval vm_compute in viewModels Instance.KEY_PREFIX getUserAvatar (boot Instance.users).

End Sample.

(** * Properties *)

(** ** The rate limiter *)

Section RateLimiterFacts.

Variable o : RateLimiter.opts.
Implicit Types (l : gmap string RateLimiter.bucket) (key : string) (t : Z).

Lemma consume_rejects_iff l key t :
  RateLimiter.consume o l key t = None <-> RateLimiter.remaining o l key t = O.
Proof.
  unfold RateLimiter.consume.
  destruct (RateLimiter.remaining o l key t); split; congruence.
Qed.

(** A consumption that is accepted takes exactly one point. *)
Lemma consume_takes_one l l' key t :
  0 < RateLimiter.duration o ->
  RateLimiter.consume o l key t = Some l' ->
  RateLimiter.remaining o l key t = S (RateLimiter.remaining o l' key t).
Proof.
  intros Hd. unfold RateLimiter.consume.
  destruct (RateLimiter.remaining o l key t) as [|n] eqn:Hr; [discriminate|].
  intros [= <-]. revert Hr. unfold RateLimiter.remaining, RateLimiter.live.
  rewrite lookup_insert_eq.
  destruct (l !! key) as [b|]; simpl.
  - destruct (t <? RateLimiter.expires b) eqn:Hl; simpl.
    + rewrite Hl. lia.
    + replace (t <? t + RateLimiter.duration o * 1000) with true
        by (symmetry; apply Z.ltb_lt; lia).
      lia.
  - replace (t <? t + RateLimiter.duration o * 1000) with true
      by (symmetry; apply Z.ltb_lt; lia).
    lia.
Qed.

Lemma delete_remaining l key t :
  RateLimiter.remaining o (RateLimiter.delete l key) key t = RateLimiter.points o.
Proof.
  unfold RateLimiter.remaining, RateLimiter.delete. by rewrite lookup_delete_eq.
Qed.

Lemma charged_first l key t :
  (0 < RateLimiter.points o)%nat ->
  RateLimiter.charged o (RateLimiter.after_consume o l key t) key (RateLimiter.window_end o l key t) 1.
Proof.
  intros Hp. unfold RateLimiter.after_consume, RateLimiter.consume, RateLimiter.charged.
  unfold RateLimiter.remaining, RateLimiter.window_end, RateLimiter.live.
  destruct (l !! key) as [b|] eqn:Hb; simpl.
  - destruct (t <? RateLimiter.expires b) eqn:Hl; simpl.
    + destruct (RateLimiter.points o - RateLimiter.consumed b)%nat eqn:Hr.
      * exists b. repeat split; [done|lia|lia].
      * eexists. rewrite lookup_insert_eq. split; [done|]. simpl. lia.
    + destruct (RateLimiter.points o) eqn:Hpo; [lia|].
      eexists. rewrite lookup_insert_eq. split; [done|]. simpl. lia.
  - destruct (RateLimiter.points o) eqn:Hpo; [lia|].
    eexists. rewrite lookup_insert_eq. split; [done|]. simpl. lia.
Qed.

Lemma charged_next l key t e n :
  RateLimiter.charged o l key e n -> t < e ->
  RateLimiter.charged o (RateLimiter.after_consume o l key t) key e (S n).
Proof.
  intros (b & Hb & He & Hn) Ht.
  unfold RateLimiter.after_consume, RateLimiter.consume, RateLimiter.charged.
  unfold RateLimiter.remaining, RateLimiter.live. rewrite Hb.
  replace (t <? RateLimiter.expires b) with true by (symmetry; apply Z.ltb_lt; lia).
  destruct (RateLimiter.points o - RateLimiter.consumed b)%nat eqn:Hr.
  - exists b. repeat split; [done|lia|lia].
  - eexists. rewrite lookup_insert_eq. split; [done|]. simpl. lia.
Qed.

Lemma charged_all_rejects l key t e :
  RateLimiter.charged o l key e (RateLimiter.points o) -> t < e ->
  RateLimiter.consume o l key t = None.
Proof.
  intros (b & Hb & He & Hn) Ht. apply consume_rejects_iff.
  unfold RateLimiter.remaining, RateLimiter.live. rewrite Hb.
  replace (t <? RateLimiter.expires b) with true by (symmetry; apply Z.ltb_lt; lia).
  lia.
Qed.

End RateLimiterFacts.

(** ** Login *)

Section LoginFacts.

Variable toKey : jsval -> string.
Variable getPasswordHash : jsval -> string -> option string.

Abbreviation post_login := (post_login toKey getPasswordHash).
Abbreviation logins := (logins toKey getPasswordHash).

(** Without budget the request is answered before the storage is read,
    and nothing changes. *)
Lemma post_login_rejected s req :
  truthy (Body.handle (body req)) = true ->
  RateLimiter.consume loginLimiter_opts (loginLimiter s) (ip req) (now req) = None ->
  post_login s req = (s, None, rate_limited_login).
Proof. intros Hh Hc. unfold post_login. by rewrite Hh, Hc. Qed.

(** A login that carries a handle and does not succeed leaves the state
    as it was except for the point that the limiter took. *)
Lemma post_login_failed s req :
  truthy (Body.handle (body req)) = true ->
  status_of (post_login s req).2 <> 200 ->
  (post_login s req).1.1 =
    set_loginLimiter s
      (RateLimiter.after_consume loginLimiter_opts (loginLimiter s) (ip req) (now req)).
Proof.
  intros Hh. unfold post_login, RateLimiter.after_consume. rewrite Hh. simpl.
  destruct (RateLimiter.consume _ _ _ _) as [l'|]; simpl.
  - repeat case_match; simpl; try done.
  - by destruct s.
Qed.

(** The limiter is keyed by the source address: a login, whatever its
    outcome, leaves the buckets of the other addresses as they are. *)
Lemma post_login_other_address s req key :
  ip req <> key ->
  loginLimiter (post_login s req).1.1 !! key = loginLimiter s !! key.
Proof.
  intros Hne. unfold post_login, RateLimiter.consume, RateLimiter.delete.
  repeat case_match; simpl; simplify_eq;
    rewrite ?lookup_delete_ne, ?lookup_insert_ne by done; done.
Qed.

Lemma logins_cons s req reqs :
  logins s (req :: reqs) =
    ((logins (post_login s req).1.1 reqs).1,
     (post_login s req).2 :: (logins (post_login s req).1.1 reqs).2).
Proof.
  simpl. destruct (post_login s req) as [[s1 h] r]. simpl.
  by destruct (logins s1 reqs).
Qed.

(** Every failed attempt within the window adds to the charge. *)
Lemma logins_charged reqs : forall s key e n,
  Forall (fun r => ip r = key /\ truthy (Body.handle (body r)) = true /\ now r < e) reqs ->
  Forall (fun r => status_of r <> 200) (logins s reqs).2 ->
  RateLimiter.charged loginLimiter_opts (loginLimiter s) key e n ->
  RateLimiter.charged loginLimiter_opts (loginLimiter (logins s reqs).1) key e
    (n + length reqs).
Proof.
  induction reqs as [|req reqs IH]; intros s key e n Hreqs Hfail Hn.
  - simpl. by rewrite Nat.add_0_r.
  - rewrite logins_cons in Hfail |- *. simpl in Hfail |- *.
    apply Forall_cons in Hreqs as [(Hip & Hh & Ht) Hreqs].
    apply Forall_cons in Hfail as [Hf Hfail].
    replace (n + S (length reqs))%nat with (S n + length reqs)%nat by lia.
    apply IH; [done|done|].
    rewrite (post_login_failed s req Hh Hf). simpl. rewrite Hip.
    by apply charged_next.
Qed.

(** C1.  Login charges the source address before it looks the account
    up, and a failed attempt keeps the charge.  First part, for a
    request that carries a handle: when the address has no point left
    the answer is 429 and the state is untouched, whatever the storage
    holds; any outcome other than success leaves the state as it was
    except that the limiter has been charged; and the buckets of the
    other addresses are never touched.  Second part: after five
    failed attempts from one address in one window of the limiter
    (5 points per 60 seconds), a sixth attempt from that address in the
    same window, whatever handle it carries, is answered 429 and not
    403. *)
Theorem login_sixth_attempt_rate_limited
    (s : State) (key : string) (first : Request) (rest : list Request) (req : Request) :
  (truthy (Body.handle (body first)) = true ->
     (RateLimiter.remaining loginLimiter_opts (loginLimiter s) (ip first) (now first) = O ->
        post_login s first = (s, None, rate_limited_login)) /\
     (status_of (post_login s first).2 <> 200 ->
        (post_login s first).1.1 =
          set_loginLimiter s
            (RateLimiter.after_consume loginLimiter_opts (loginLimiter s)
               (ip first) (now first)))) /\
  (ip first <> key ->
     loginLimiter (post_login s first).1.1 !! key = loginLimiter s !! key) /\
  (length rest = 4%nat ->
   Forall (fun r => ip r = key /\ truthy (Body.handle (body r)) = true /\
                    now r < RateLimiter.window_end loginLimiter_opts (loginLimiter s)
                              key (now first))
          (first :: rest ++ [req]) ->
   Forall (fun r => status_of r <> 200) (logins s (first :: rest)).2 ->
   post_login (logins s (first :: rest)).1 req =
     ((logins s (first :: rest)).1, None, rate_limited_login)).
Proof.
  split; [|split].
  - intros Hh. split.
    + intros Hr. apply post_login_rejected; [done|]. by apply consume_rejects_iff.
    + by apply post_login_failed.
  - apply post_login_other_address.
  - intros Hlen Hreqs Hfail.
    set (e := RateLimiter.window_end _ _ _ _) in Hreqs.
    apply Forall_cons in Hreqs as [(Hip & Hh & Ht) Hreqs].
    apply Forall_app in Hreqs as [Hrest Hreq].
    apply Forall_singleton in Hreq as (Hip6 & Hh6 & Ht6).
    rewrite logins_cons in Hfail |- *. simpl in Hfail |- *.
    apply Forall_cons in Hfail as [Hf Hfail].
    apply post_login_rejected; [done|].
    apply charged_all_rejects with (e := e); [|done].
    rewrite Hip6.
    change (RateLimiter.points loginLimiter_opts) with (1 + 4)%nat.
    rewrite <- Hlen.
    apply logins_charged; [done|done|].
    rewrite (post_login_failed s first Hh Hf). simpl. rewrite Hip.
    subst e. apply charged_first. simpl. lia.
Qed.

(** C3.  An enabled account whose stored hash is the empty string logs
    in whatever the password field of the request holds (any value, or
    none): for a request that the limiter lets through and that has a
    session, and for every [p] put in its password field, the answer is
    200 with the handle of the account, the session is bound to that
    handle, the budget of the address is restored and nothing else
    changes.  The password and the hash function are not consulted. *)
Theorem login_passwordless (s : State) (req : Request) (user : User.t) (p : jsval) :
  truthy (Body.handle (body req)) = true ->
  storage s !! toKey (Body.handle (body req)) = Some user ->
  User.enabled user = true ->
  User.password user = "" ->
  RateLimiter.remaining loginLimiter_opts (loginLimiter s) (ip req) (now req) <> O ->
  session req = true ->
  post_login s (with_password req p) =
    (set_loginLimiter s (RateLimiter.delete (loginLimiter s) (ip req)),
     Some (User.handle user),
     json 200 (JObj [("handle", JStr (User.handle user))])).
Proof.
  intros Hh Hu He Hp Hr Hs. unfold post_login. simpl. rewrite Hh. simpl.
  unfold RateLimiter.consume.
  destruct (RateLimiter.remaining _ _ _ _); [done|].
  simpl. rewrite Hu, He, Hp, Hs. simpl.
  unfold set_loginLimiter, RateLimiter.delete. simpl.
  by rewrite delete_insert_eq.
Qed.

(** C4, as the code has it.  For requests with a handle from one address
    at one instant, an unknown handle and the handle of a disabled
    account get the same status code (403, or 429 for both when the
    address has no budget left) and leave the same state, but the
    messages differ: "Incorrect credentials" for the unknown handle,
    "User is disabled" for the disabled account. *)
Theorem login_unknown_vs_disabled (s : State) (req1 req2 : Request) (user : User.t) :
  truthy (Body.handle (body req1)) = true ->
  truthy (Body.handle (body req2)) = true ->
  ip req1 = ip req2 ->
  now req1 = now req2 ->
  storage s !! toKey (Body.handle (body req1)) = None ->
  storage s !! toKey (Body.handle (body req2)) = Some user ->
  User.enabled user = false ->
  status_of (post_login s req1).2 = status_of (post_login s req2).2 /\
  (post_login s req1).1 = (post_login s req2).1 /\
  (RateLimiter.remaining loginLimiter_opts (loginLimiter s) (ip req1) (now req1) <> O ->
     (post_login s req1).2 = json 403 (error "Incorrect credentials") /\
     (post_login s req2).2 = json 403 (error "User is disabled")) /\
  (RateLimiter.remaining loginLimiter_opts (loginLimiter s) (ip req1) (now req1) = O ->
     (post_login s req1).2 = rate_limited_login /\
     (post_login s req2).2 = rate_limited_login).
Proof.
  intros Hh1 Hh2 Hip Hnow Hu1 Hu2 He. unfold post_login.
  rewrite Hh1, Hh2, <- Hip, <- Hnow. simpl.
  destruct (RateLimiter.consume _ _ _ _) as [l'|] eqn:Hc; simpl.
  - rewrite Hu1, Hu2, He. simpl.
    split; [done|]. split; [done|]. split; [done|].
    intros Hr. apply consume_rejects_iff in Hr. congruence.
  - apply consume_rejects_iff in Hc.
    split; [done|]. split; [done|]. split; done.
Qed.

End LoginFacts.

(** ** Recovery *)

Lemma strict_eq_miss (v : jsval) : truthy v = true -> strict_eq v (cached None) = false.
Proof. by destruct v. Qed.

Lemma cache_get_set (ttl : Z) (c : gmap string Cache.entry) (key v : string) (t1 t2 : Z) :
  Cache.get (Cache.set ttl c key v t1) key t2 = if t2 <? t1 + ttl then Some v else None.
Proof. unfold Cache.get, Cache.set. by rewrite lookup_insert_eq. Qed.

Lemma cache_get_remove (c : gmap string Cache.entry) (key : string) (t : Z) :
  Cache.get (Cache.remove c key) key t = None.
Proof. unfold Cache.get, Cache.remove. by rewrite lookup_delete_eq. Qed.

(** The decimal form of an integer is never the empty string. *)
Lemma pretty_N_go_nonempty (x : N) : forall s : string, s <> "" -> pretty_N_go x s <> "".
Proof.
  induction (N.lt_wf_0 x) as [x _ IH]; intros s Hs.
  destruct (decide (x = 0)%N) as [->|Hx].
  - by rewrite pretty_N_go_0.
  - rewrite pretty_N_go_step by lia. apply IH; [|done].
    apply N.div_lt; lia.
Qed.

Lemma pretty_Z_nonempty (n : Z) : pretty n <> "".
Proof.
  assert (forall p : positive, pretty p <> "") as Hpos.
  { intros p. unfold pretty, pretty_positive, pretty, pretty_N.
    destruct (decide (N.pos p = 0%N)); [done|].
    rewrite pretty_N_go_step by lia. by apply pretty_N_go_nonempty. }
  destruct n as [|p|p]; unfold pretty, pretty_Z; [done|apply Hpos|done].
Qed.

Lemma truthy_issued_code (n : Z) : truthy (JStr (pretty n)) = true.
Proof.
  simpl. destruct (String.eqb_spec (pretty n) ""); [|done].
  by destruct (pretty_Z_nonempty n).
Qed.

Section RecoveryFacts.

Variable toKey : jsval -> string.
Variable getPasswordHash : jsval -> string -> option string.

Abbreviation post_recover_step1 := (post_recover_step1 toKey).
Abbreviation post_recover_step2 := (post_recover_step2 toKey getPasswordHash).

(** What a successful first step has done. *)
Lemma post_recover_step1_issued s req :
  (post_recover_step1 s req).2 = sendStatus 204 ->
  exists user l',
    truthy (Body.handle (body req)) = true /\
    RateLimiter.consume recoverLimiter_opts (recoverLimiter s) (ip req) (now req) = Some l' /\
    storage s !! toKey (Body.handle (body req)) = Some user /\
    User.enabled user = true /\
    (post_recover_step1 s req).1 =
      set_MFA_CACHE (set_recoverLimiter s l')
        (Cache.set MFA_CACHE_ttl (MFA_CACHE s) (User.handle user)
           (pretty (randomInt req)) (now req)).
Proof.
  unfold post_recover_step1.
  destruct (truthy (Body.handle (body req))); simpl; [|done].
  destruct (RateLimiter.consume _ _ _ _) as [l'|]; simpl; [|done].
  destruct (storage s !! _) as [user|]; simpl; [|done].
  destruct (User.enabled user) eqn:He; simpl; [|done].
  intros _. by exists user, l'.
Qed.

(** The second step on a code that does not match. *)
Lemma post_recover_step2_mismatch s req user :
  truthy (Body.handle (body req)) = true ->
  truthy (Body.code (body req)) = true ->
  storage s !! toKey (Body.handle (body req)) = Some user ->
  User.enabled user = true ->
  strict_eq (Body.code (body req))
    (cached (Cache.get (MFA_CACHE s) (User.handle user) (now req))) = false ->
  post_recover_step2 s req =
    match RateLimiter.consume recoverLimiter_opts (recoverLimiter s) (ip req) (now req) with
    | Some l' => (set_recoverLimiter s l', json 403 (error "Incorrect code"))
    | None => (s, rate_limited_recover)
    end.
Proof.
  intros Hh Hc Hu He Hm. unfold post_recover_step2.
  by rewrite Hh, Hc, Hu, He, Hm.
Qed.

(** What a successful second step has done. *)
Lemma post_recover_step2_verified s req :
  (post_recover_step2 s req).2 = sendStatus 204 ->
  exists user user',
    truthy (Body.handle (body req)) = true /\
    truthy (Body.code (body req)) = true /\
    storage s !! toKey (Body.handle (body req)) = Some user /\
    User.enabled user = true /\
    strict_eq (Body.code (body req))
      (cached (Cache.get (MFA_CACHE s) (User.handle user) (now req))) = true /\
    User.handle user' = User.handle user /\ User.enabled user' = true /\
    (post_recover_step2 s req).1 =
      {| storage := <[toKey (JStr (User.handle user)) := user']> (storage s);
         MFA_CACHE := Cache.remove (MFA_CACHE s) (User.handle user);
         loginLimiter := loginLimiter s;
         recoverLimiter := RateLimiter.delete (recoverLimiter s) (ip req) |}.
Proof.
  unfold post_recover_step2.
  destruct (truthy (Body.handle (body req))); simpl; [|done].
  destruct (truthy (Body.code (body req))); simpl; [|done].
  destruct (storage s !! _) as [user|]; simpl; [|done].
  destruct (User.enabled user) eqn:He; simpl; [|done].
  destruct (strict_eq _ _) eqn:Hm; simpl.
  - destruct (truthy (Body.newPassword (body req))).
    + destruct (getPasswordHash _ _) as [h|]; simpl; [|done].
      intros _. by eexists user, (User.with_password user h _).
    + intros _. by eexists user, (User.with_password user "" "").
  - by destruct (RateLimiter.consume _ _ _ _).
Qed.

Lemma post_recover_step2_failed s req :
  (post_recover_step2 s req).2 <> sendStatus 204 ->
  storage (post_recover_step2 s req).1 = storage s.
Proof.
  unfold post_recover_step2. repeat case_match; simpl; done.
Qed.

(** C2.  The second recovery step commits nothing when it fails.  For a
    request with handle and code whose account exists and is enabled,
    when no challenge is cached for the account or the supplied code is
    not the cached one, the storage, the cache and the login limiter are
    as before.  When the address has budget left, exactly one point of
    the recovery limiter is taken and the answer is 403 "Incorrect code";
    when it has none, the answer is 429 and the whole state is as before:
    no point is taken.  For every request: an answer other than the
    success 204 leaves the storage unchanged, and the success is given
    only when the supplied code is the cached one. *)
Theorem recover_step2_no_partial_state
    (s : State) (req : Request) (user : User.t) :
  (truthy (Body.handle (body req)) = true ->
   truthy (Body.code (body req)) = true ->
   storage s !! toKey (Body.handle (body req)) = Some user ->
   User.enabled user = true ->
   Cache.get (MFA_CACHE s) (User.handle user) (now req) = None \/
     strict_eq (Body.code (body req))
       (cached (Cache.get (MFA_CACHE s) (User.handle user) (now req))) = false ->
   storage (post_recover_step2 s req).1 = storage s /\
   MFA_CACHE (post_recover_step2 s req).1 = MFA_CACHE s /\
   loginLimiter (post_recover_step2 s req).1 = loginLimiter s /\
   match RateLimiter.remaining recoverLimiter_opts (recoverLimiter s) (ip req) (now req) with
   | S n =>
       (post_recover_step2 s req).2 = json 403 (error "Incorrect code") /\
       RateLimiter.remaining recoverLimiter_opts
         (recoverLimiter (post_recover_step2 s req).1) (ip req) (now req) = n
   | O => post_recover_step2 s req = (s, rate_limited_recover)
   end) /\
  ((post_recover_step2 s req).2 <> sendStatus 204 ->
   storage (post_recover_step2 s req).1 = storage s) /\
  ((post_recover_step2 s req).2 = sendStatus 204 ->
   exists u, storage s !! toKey (Body.handle (body req)) = Some u /\
     strict_eq (Body.code (body req))
       (cached (Cache.get (MFA_CACHE s) (User.handle u) (now req))) = true).
Proof.
  split; [|split].
  - intros Hh Hc Hu He Hm.
    assert (strict_eq (Body.code (body req))
              (cached (Cache.get (MFA_CACHE s) (User.handle user) (now req))) = false)
      as Hm'.
    { destruct Hm as [->|Hm]; [by apply strict_eq_miss|done]. }
    rewrite (post_recover_step2_mismatch s req user) by done.
    destruct (RateLimiter.consume _ _ _ _) as [l'|] eqn:Hl.
    + simpl. do 3 (split; [done|]).
      destruct (RateLimiter.remaining recoverLimiter_opts (recoverLimiter s) _ _)
        as [|n] eqn:Hr.
      * apply consume_rejects_iff in Hr. congruence.
      * split; [done|]. apply consume_takes_one in Hl; [|done]. lia.
    + do 3 (split; [done|]).
      apply consume_rejects_iff in Hl. by rewrite Hl.
  - apply post_recover_step2_failed.
  - intros Hok.
    destruct (post_recover_step2_verified s req Hok)
      as (u & u' & _ & _ & Hu & _ & Hm & _).
    by exists u.
Qed.

(** A code that does not match is never accepted: the storage and the
    cache stay as they are, and the answer is 403 "Incorrect code", or
    429 when the address has no budget left. *)
Lemma post_recover_step2_mismatch_outcome s req user :
  truthy (Body.handle (body req)) = true ->
  truthy (Body.code (body req)) = true ->
  storage s !! toKey (Body.handle (body req)) = Some user ->
  User.enabled user = true ->
  strict_eq (Body.code (body req))
    (cached (Cache.get (MFA_CACHE s) (User.handle user) (now req))) = false ->
  (post_recover_step2 s req).2 =
    (if RateLimiter.remaining recoverLimiter_opts (recoverLimiter s) (ip req) (now req)
     is O then rate_limited_recover else json 403 (error "Incorrect code")) /\
  storage (post_recover_step2 s req).1 = storage s /\
  MFA_CACHE (post_recover_step2 s req).1 = MFA_CACHE s.
Proof.
  intros Hh Hc Hu He Hm.
  rewrite (post_recover_step2_mismatch s req user) by done.
  destruct (RateLimiter.consume recoverLimiter_opts (recoverLimiter s) _ _) eqn:Hl.
  - destruct (RateLimiter.remaining _ _ _ _) eqn:Hr; [|done].
    apply consume_rejects_iff in Hr. congruence.
  - apply consume_rejects_iff in Hl. by rewrite Hl.
Qed.

(** C6.  A challenge cannot be verified once its five minutes are over.
    After a first step that issued a code at [now req1], a second step
    for the same handle at an instant not before [now req1 + 300000],
    carrying the very code that was issued (or any other code that passes
    validation), is answered 403 "Incorrect code" (429 when its address
    has no recovery budget left) and the storage is unchanged: the read
    of the expired entry is a miss. *)
Theorem recover_challenge_expires (s : State) (req1 req2 : Request) :
  (post_recover_step1 s req1).2 = sendStatus 204 ->
  Body.handle (body req2) = Body.handle (body req1) ->
  Body.code (body req2) = JStr (pretty (randomInt req1)) \/
    truthy (Body.code (body req2)) = true ->
  now req1 + MFA_CACHE_ttl <= now req2 ->
  (post_recover_step2 (post_recover_step1 s req1).1 req2).2 =
    (if RateLimiter.remaining recoverLimiter_opts
          (recoverLimiter (post_recover_step1 s req1).1) (ip req2) (now req2)
     is O then rate_limited_recover else json 403 (error "Incorrect code")) /\
  storage (post_recover_step2 (post_recover_step1 s req1).1 req2).1 = storage s.
Proof.
  intros H1 Hh Hc Ht.
  destruct (post_recover_step1_issued s req1 H1) as (user & l' & Hh1 & Hl & Hu & He & Hs1).
  assert (truthy (Body.code (body req2)) = true) as Hc'.
  { destruct Hc as [->|Hc]; [apply truthy_issued_code|done]. }
  destruct (post_recover_step2_mismatch_outcome (post_recover_step1 s req1).1 req2 user)
    as (Hr & Hst & _); rewrite ?Hs1; simpl; rewrite ?Hh; try done.
  - rewrite cache_get_set.
    replace (now req2 <? now req1 + MFA_CACHE_ttl) with false
      by (symmetry; apply Z.ltb_ge; lia).
    by apply strict_eq_miss.
  - rewrite Hs1 in Hr, Hst. simpl in Hr, Hst. by split.
Qed.

(** C7.  A challenge is used once.  A second step that succeeded has
    removed the challenge of the account and restored the recovery budget
    of its address; a further second step for the same handle with the
    same code changes nothing in the storage and is answered 403
    "Incorrect code", from the same address always and from another
    address unless that one has no recovery budget left (then 429). *)
Theorem recover_challenge_single_use (s : State) (req1 req2 : Request) (user : User.t) :
  storage s !! toKey (Body.handle (body req1)) = Some user ->
  (post_recover_step2 s req1).2 = sendStatus 204 ->
  (forall t, Cache.get (MFA_CACHE (post_recover_step2 s req1).1) (User.handle user) t = None) /\
  (forall t, RateLimiter.remaining recoverLimiter_opts
               (recoverLimiter (post_recover_step2 s req1).1) (ip req1) t = 5%nat) /\
  (Body.handle (body req2) = Body.handle (body req1) ->
   Body.code (body req2) = Body.code (body req1) ->
   (post_recover_step2 (post_recover_step2 s req1).1 req2).2 =
     (if RateLimiter.remaining recoverLimiter_opts
           (recoverLimiter (post_recover_step2 s req1).1) (ip req2) (now req2)
      is O then rate_limited_recover else json 403 (error "Incorrect code")) /\
   (ip req2 = ip req1 ->
    (post_recover_step2 (post_recover_step2 s req1).1 req2).2
      = json 403 (error "Incorrect code")) /\
   storage (post_recover_step2 (post_recover_step2 s req1).1 req2).1
     = storage (post_recover_step2 s req1).1).
Proof.
  intros Hu H1.
  destruct (post_recover_step2_verified s req1 H1)
    as (u & u' & Hh1 & Hc1 & Hu1 & He & Hm & Hhu & Heu & Hs1).
  assert (u = user) as -> by congruence.
  split; [|split].
  - intros t. rewrite Hs1. apply cache_get_remove.
  - intros t. rewrite Hs1. apply (delete_remaining recoverLimiter_opts).
  - intros Hh Hc.
    assert (exists v, storage (post_recover_step2 s req1).1
                        !! toKey (Body.handle (body req2)) = Some v /\
                      User.handle v = User.handle user /\ User.enabled v = true)
      as (v & Hv & Hhv & Hev).
    { rewrite Hs1. simpl.
      destruct (decide (toKey (JStr (User.handle user)) = toKey (Body.handle (body req2))))
        as [Heq|Hne].
      - exists u'. by rewrite <- Heq, lookup_insert_eq.
      - exists user. by rewrite lookup_insert_ne, Hh. }
    destruct (post_recover_step2_mismatch_outcome (post_recover_step2 s req1).1 req2 v)
      as (Hr & Hst & _).
    + by rewrite Hh.
    + by rewrite Hc.
    + done.
    + done.
    + rewrite Hhv, Hs1. simpl. rewrite cache_get_remove. apply strict_eq_miss.
      by rewrite Hc.
    + split; [done|]. split; [|done].
      intros Hip. rewrite Hr, Hip, Hs1. simpl.
      by rewrite (delete_remaining recoverLimiter_opts).
Qed.

(** C8, as the code has it.  A second issuance for the same handle
    overwrites the first: afterwards the cache holds, for the account, the
    second code and nothing else.  When the second code differs from the
    first, a second step that supplies the first code is answered 403
    "Incorrect code" (429 when its address has no recovery budget left)
    and the storage is unchanged. *)
Theorem recover_second_issuance_overwrites
    (s : State) (req1 req2 req3 : Request) (user : User.t) :
  storage s !! toKey (Body.handle (body req1)) = Some user ->
  (post_recover_step1 s req1).2 = sendStatus 204 ->
  Body.handle (body req2) = Body.handle (body req1) ->
  (post_recover_step1 (post_recover_step1 s req1).1 req2).2 = sendStatus 204 ->
  (forall t,
     Cache.get (MFA_CACHE (post_recover_step1 (post_recover_step1 s req1).1 req2).1)
       (User.handle user) t
     = if t <? now req2 + MFA_CACHE_ttl then Some (pretty (randomInt req2)) else None) /\
  (randomInt req2 <> randomInt req1 ->
   Body.handle (body req3) = Body.handle (body req1) ->
   Body.code (body req3) = JStr (pretty (randomInt req1)) ->
   (post_recover_step2 (post_recover_step1 (post_recover_step1 s req1).1 req2).1 req3).2 =
     (if RateLimiter.remaining recoverLimiter_opts
           (recoverLimiter (post_recover_step1 (post_recover_step1 s req1).1 req2).1)
           (ip req3) (now req3)
      is O then rate_limited_recover else json 403 (error "Incorrect code")) /\
   storage (post_recover_step2
              (post_recover_step1 (post_recover_step1 s req1).1 req2).1 req3).1
     = storage s).
Proof.
  intros Hu H1 Hh2 H2.
  destruct (post_recover_step1_issued s req1 H1) as (u1 & l1 & Hh1 & Hl1 & Hu1 & He1 & Hs1).
  assert (u1 = user) as -> by congruence.
  destruct (post_recover_step1_issued _ req2 H2) as (u2 & l2 & _ & Hl2 & Hu2 & He2 & Hs2).
  rewrite Hs1 in Hu2. simpl in Hu2. rewrite Hh2 in Hu2.
  assert (u2 = user) as -> by congruence.
  split.
  - intros t. rewrite Hs2, Hs1. simpl. apply cache_get_set.
  - intros Hne Hh3 Hc3.
    destruct (post_recover_step2_mismatch_outcome
                (post_recover_step1 (post_recover_step1 s req1).1 req2).1 req3 user)
      as (Hr & Hst & _); rewrite ?Hh3, ?Hc3; try done.
    + apply truthy_issued_code.
    + by rewrite Hs2, Hs1.
    + rewrite Hs2, Hs1. simpl. rewrite cache_get_set.
      destruct (now req3 <? now req2 + MFA_CACHE_ttl); simpl; [|done].
      apply not_true_is_false. rewrite String.eqb_eq.
      intros Heq. by apply (inj pretty) in Heq.
    + split; [done|]. by rewrite Hst, Hs2, Hs1.
Qed.

End RecoveryFacts.

(** ** Account creation *)

Section CreateFacts.

Variable toKey : jsval -> string.
Variable getPasswordHash : jsval -> string -> option string.
Variable getAllUserHandles : gmap string User.t -> list string.
Variable slug : jsval -> string.

Abbreviation post_create := (post_create toKey getPasswordHash getAllUserHandles slug).

(** An account that is created without a password gets the empty hash
    and the salt that was drawn for the request. *)
Lemma post_create_without_password s req :
  status_of (post_create s req).2 = 200 ->
  truthy (Body.password (body req)) = false ->
  exists u,
    storage (post_create s req).1 !! toKey (JStr (slug (Body.handle (body req)))) = Some u /\
    User.password u = "" /\ User.salt u = randomSalt req.
Proof.
  unfold post_create. intros Hok Hp. rewrite Hp in Hok |- *.
  repeat case_match; simpl in *; try done;
    eexists; by rewrite lookup_insert_eq.
Qed.

End CreateFacts.

(** The second recovery step without a new password stores the empty
    hash together with the empty salt. *)
Lemma post_recover_step2_clears toKey getPasswordHash s req :
  (post_recover_step2 toKey getPasswordHash s req).2 = sendStatus 204 ->
  truthy (Body.newPassword (body req)) = false ->
  exists u u',
    storage s !! toKey (Body.handle (body req)) = Some u /\
    storage (post_recover_step2 toKey getPasswordHash s req).1
      !! toKey (JStr (User.handle u)) = Some u' /\
    User.password u' = "" /\ User.salt u' = "".
Proof.
  unfold post_recover_step2. intros Hok Hp. rewrite Hp in Hok |- *.
  repeat case_match; simpl in *; try done.
  simplify_eq. eexists _, _. split; [done|]. by rewrite lookup_insert_eq.
Qed.

(** C5, where the code departs from it.  An account is created without a
    password, on a storage that has no such handle; the salt drawn for the
    request is the base64 form of sixteen bytes.  The record that is
    stored has the empty hash, and the drawn salt, not the empty one. *)
Theorem create_without_password_keeps_salt :
  (Instance.create (boot Instance.users) Instance.create_carol).2
    = json 200 (JObj [("handle", JStr "carol")]) /\
  exists u,
    storage (Instance.create (boot Instance.users) Instance.create_carol).1
      !! "user:carol" = Some u /\
    User.password u = "" /\
    User.salt u = "c2FsdHNhbHRzYWx0c2FsdA==" /\
    User.salt u <> "".
Proof.
  split; [by vm_compute|].
  eexists. split; [by vm_compute|]. by simpl.
Qed.

(** ** Administration *)

Section AdminFacts.

Variable toKey : jsval -> string.
Variable DEFAULT_USER_handle : string.

Abbreviation post_disable := (post_disable toKey).
Abbreviation post_demote := (post_demote toKey).
Abbreviation post_delete := (post_delete toKey DEFAULT_USER_handle).

(** C9.  A caller who names their own handle is refused by delete,
    disable and demote with status 400, whatever the state is, and the
    state stays as it was; the message is the one of the self-action
    (a caller has a non-empty handle).  Delete of the handle of the
    default account is refused with status 400 as well and removes
    nothing; for a caller other than the default account the message
    is the one of the fallback. *)
Theorem admin_self_protection (s : State) (req : Request) :
  (Body.handle (body req) = JStr (profile_handle req) ->
     (status_of (post_delete s req).2 = 400 /\ (post_delete s req).1 = s) /\
     (status_of (post_disable s req).2 = 400 /\ (post_disable s req).1 = s) /\
     (status_of (post_demote s req).2 = 400 /\ (post_demote s req).1 = s) /\
     (profile_handle req <> "" ->
        (post_delete s req).2 = json 400 (error "Cannot delete yourself") /\
        (post_disable s req).2 = json 400 (error "Cannot disable yourself") /\
        (post_demote s req).2 = json 400 (error "Cannot demote yourself"))) /\
  (Body.handle (body req) = JStr DEFAULT_USER_handle ->
     status_of (post_delete s req).2 = 400 /\ (post_delete s req).1 = s /\
     (DEFAULT_USER_handle <> "" -> profile_handle req <> DEFAULT_USER_handle ->
        (post_delete s req).2 =
          json 400 (error "Sorry, but the default user cannot be deleted. It is required as a fallback."))).
Proof.
  split.
  - intros Hh. unfold post_delete, post_disable, post_demote.
    rewrite Hh. simpl. rewrite String.eqb_refl.
    destruct (String.eqb_spec (profile_handle req) ""); simpl; naive_solver.
  - intros Hh. unfold post_delete. rewrite Hh. simpl. rewrite String.eqb_refl.
    destruct (String.eqb_spec DEFAULT_USER_handle ""); simpl; [naive_solver|].
    destruct (String.eqb_spec DEFAULT_USER_handle (profile_handle req)); simpl;
      naive_solver.
Qed.

End AdminFacts.

(** ** The public counts *)

Section CountFacts.

Variable KEY_PREFIX : string.

Abbreviation user_values := (user_values KEY_PREFIX).
Abbreviation post_list := (post_list KEY_PREFIX).
Abbreviation get_count := (get_count KEY_PREFIX).

(** C10.  The list and count routes reveal two numbers and nothing
    else.  Both answer 200 with exactly the number of accounts and the
    number of enabled accounts, the two routes answer alike, no string
    occurs as a value in the body (so no handle, name, hash or salt
    does), and the state is not changed; hence two states with the same
    two numbers get identical answers. *)
Theorem public_routes_reveal_counts_only (s1 s2 : State) (req1 req2 : Request) :
  (post_list s1 req1).2 =
    json 200 (JObj [("total", JNum (Z.of_nat (length (user_values (storage s1)))));
                    ("enabled", JNum (Z.of_nat (length
                       (List.filter User.enabled (user_values (storage s1))))))]) /\
  (get_count s1 req1).2 = (post_list s1 req1).2 /\
  string_values (payload_of (post_list s1 req1).2) = [] /\
  string_values (payload_of (get_count s1 req1).2) = [] /\
  (post_list s1 req1).1 = s1 /\ (get_count s1 req1).1 = s1 /\
  (length (user_values (storage s1)) = length (user_values (storage s2)) ->
   length (List.filter User.enabled (user_values (storage s1)))
     = length (List.filter User.enabled (user_values (storage s2))) ->
   (post_list s1 req1).2 = (post_list s2 req2).2 /\
   (get_count s1 req1).2 = (get_count s2 req2).2).
Proof.
  unfold post_list, get_count. simpl.
  do 6 (split; [done|]).
  intros Ht He. by rewrite Ht, He.
Qed.

End CountFacts.

(** ** The properties on concrete requests *)

Lemma login_sixth_attempt_rate_limited_witness :
  Forall (fun r => status_of r = 403)
    (logins Instance.toKey Instance.getPasswordHash (boot Instance.users)
       (Instance.first_attempt :: Instance.more_attempts)).2 /\
  (Instance.login
     (logins Instance.toKey Instance.getPasswordHash (boot Instance.users)
        (Instance.first_attempt :: Instance.more_attempts)).1
     Instance.sixth_attempt).2 = rate_limited_login.
Proof.
  split; [by repeat constructor|].
  unfold Instance.login.
  rewrite (proj2 (proj2 (login_sixth_attempt_rate_limited
                           Instance.toKey Instance.getPasswordHash
                           (boot Instance.users) "10.0.0.7" Instance.first_attempt
                           Instance.more_attempts Instance.sixth_attempt))).
  - reflexivity.
  - reflexivity.
  - repeat constructor.
  - repeat constructor; by vm_compute.
Defined.

(** A code is outstanding for alice and the wrong code 0000 is presented
    from the address of the issuance, which has four points left. *)
Lemma recover_step2_no_partial_state_witness :
  Cache.get (MFA_CACHE Instance.issued) "alice" 2000 = Some "4821" /\
  (Instance.recover2 Instance.issued Instance.verify_wrong).2
    = json 403 (error "Incorrect code") /\
  RateLimiter.remaining recoverLimiter_opts
    (recoverLimiter (Instance.recover2 Instance.issued Instance.verify_wrong).1)
    "10.0.0.7" 2000 = 3%nat /\
  storage (Instance.recover2 Instance.issued Instance.verify_wrong).1 = Instance.users /\
  MFA_CACHE (Instance.recover2 Instance.issued Instance.verify_wrong).1
    = MFA_CACHE Instance.issued.
Proof.
  split; [reflexivity|].
  destruct (proj1 (recover_step2_no_partial_state Instance.toKey Instance.getPasswordHash
                     Instance.issued Instance.verify_wrong Instance.alice)
              eq_refl eq_refl eq_refl eq_refl (or_intror eq_refl))
    as (Hs & Hc & _ & Hl).
  assert (RateLimiter.remaining recoverLimiter_opts (recoverLimiter Instance.issued)
            (ip Instance.verify_wrong) (now Instance.verify_wrong) = 4%nat) as Hr
    by reflexivity.
  rewrite Hr in Hl. destruct Hl as [Hresp Hn].
  split; [exact Hresp|]. split; [exact Hn|]. split; [exact Hs|exact Hc].
Defined.

(** C2 as it is stated fails.  The code 4821 is outstanding for alice and
    four wrong codes have taken the points that the issuance left to the
    address.  A further request whose code, 0000, is not the cached one is
    answered 429, not 403 "Incorrect code", and no point is consumed: the
    state is as before. *)
Lemma recover_step2_mismatch_rate_limited :
  storage (Instance.refused 4) !! Instance.toKey (JStr "alice") = Some Instance.alice /\
  User.enabled Instance.alice = true /\
  Cache.get (MFA_CACHE (Instance.refused 4)) "alice" 2000 = Some "4821" /\
  Body.code (body Instance.verify_wrong) = JStr "0000" /\
  RateLimiter.remaining recoverLimiter_opts (recoverLimiter (Instance.refused 4))
    "10.0.0.7" 2000 = 0%nat /\
  (Instance.recover2 (Instance.refused 4) Instance.verify_wrong).2
    = json 429 (error "Too many attempts. Try again later or contact your admin.") /\
  (Instance.recover2 (Instance.refused 4) Instance.verify_wrong).2
    <> json 403 (error "Incorrect code") /\
  (Instance.recover2 (Instance.refused 4) Instance.verify_wrong).1 = Instance.refused 4.
Proof. repeat split; by vm_compute. Qed.

Lemma login_passwordless_witness :
  (Instance.login (boot Instance.users)
     (with_password Instance.login_guest (JStr "whatever"))).2
    = json 200 (JObj [("handle", JStr "guest")]) /\
  (Instance.login (boot Instance.users)
     (with_password Instance.login_guest JUndefined)).2
    = json 200 (JObj [("handle", JStr "guest")]).
Proof.
  unfold Instance.login.
  rewrite 2!(login_passwordless Instance.toKey Instance.getPasswordHash
               (boot Instance.users) Instance.login_guest Instance.guest);
    try reflexivity; by vm_compute.
Defined.

Lemma login_unknown_vs_disabled_witness :
  status_of (Instance.login (boot Instance.users) Instance.login_unknown).2
    = status_of (Instance.login (boot Instance.users) Instance.login_disabled).2.
Proof.
  apply (login_unknown_vs_disabled Instance.toKey Instance.getPasswordHash
           (boot Instance.users) Instance.login_unknown Instance.login_disabled
           Instance.bob); reflexivity.
Defined.

(** C4 as it is stated fails: the unknown handle and the disabled account
    get different messages. *)
Lemma login_disabled_message_differs :
  storage (boot Instance.users) !! Instance.toKey (JStr "nobody") = None /\
  storage (boot Instance.users) !! Instance.toKey (JStr "bob") = Some Instance.bob /\
  User.enabled Instance.bob = false /\
  (Instance.login (boot Instance.users) Instance.login_unknown).2
    = json 403 (error "Incorrect credentials") /\
  (Instance.login (boot Instance.users) Instance.login_disabled).2
    = json 403 (error "User is disabled") /\
  payload_of (Instance.login (boot Instance.users) Instance.login_unknown).2
    <> payload_of (Instance.login (boot Instance.users) Instance.login_disabled).2.
Proof. repeat split; by vm_compute. Qed.

Lemma recover_challenge_expires_witness :
  Cache.get (MFA_CACHE Instance.issued) "alice" 299999 = Some "4821" /\
  (Instance.recover2 Instance.issued (Instance.verify 300000)).2
    = json 403 (error "Incorrect code").
Proof.
  split; [reflexivity|].
  apply (recover_challenge_expires Instance.toKey Instance.getPasswordHash
           (boot Instance.users) Instance.issue (Instance.verify 300000)).
  - reflexivity.
  - reflexivity.
  - left. reflexivity.
  - by vm_compute.
Defined.

Lemma recover_challenge_single_use_witness :
  (Instance.recover2 Instance.issued (Instance.verify 1000)).2 = sendStatus 204 /\
  (Instance.recover2 (Instance.recover2 Instance.issued (Instance.verify 1000)).1
     (Instance.verify 2000)).2 = json 403 (error "Incorrect code").
Proof.
  split; [reflexivity|].
  apply (recover_challenge_single_use Instance.toKey Instance.getPasswordHash
           Instance.issued (Instance.verify 1000) (Instance.verify 2000) Instance.alice);
    reflexivity.
Defined.

Lemma recover_second_issuance_overwrites_witness :
  (Instance.recover2 Instance.issued_again (Instance.verify 2000)).2
    = json 403 (error "Incorrect code").
Proof.
  apply (recover_second_issuance_overwrites Instance.toKey Instance.getPasswordHash
           (boot Instance.users) Instance.issue Instance.issue_again
           (Instance.verify 2000) Instance.alice).
  - reflexivity.
  - reflexivity.
  - reflexivity.
  - reflexivity.
  - by vm_compute.
  - reflexivity.
  - reflexivity.
Defined.

(** C8 as it is stated fails: when the second issuance draws the code of
    the first, the first code verifies. *)
Lemma recover_first_code_verifies_after_same_draw :
  (Instance.recover1 (boot Instance.users) Instance.issue).2 = sendStatus 204 /\
  (Instance.recover1 Instance.issued Instance.issue_same).2 = sendStatus 204 /\
  Body.code (body (Instance.verify 2000)) = JStr (pretty (randomInt Instance.issue)) /\
  (Instance.recover2 Instance.issued_same (Instance.verify 2000)).2 = sendStatus 204.
Proof. repeat split; by vm_compute. Qed.

Lemma admin_self_protection_witness :
  (post_delete Instance.toKey Instance.DEFAULT_USER_handle
     (boot Instance.users) Instance.delete_self).2
    = json 400 (error "Cannot delete yourself") /\
  (post_delete Instance.toKey Instance.DEFAULT_USER_handle
     (boot Instance.users) Instance.delete_default)
    = (boot Instance.users,
       json 400 (error "Sorry, but the default user cannot be deleted. It is required as a fallback.")).
Proof.
  split.
  - apply (proj1 (admin_self_protection Instance.toKey Instance.DEFAULT_USER_handle
                    (boot Instance.users) Instance.delete_self)).
    + reflexivity.
    + by vm_compute.
  - destruct (proj2 (admin_self_protection Instance.toKey Instance.DEFAULT_USER_handle
                       (boot Instance.users) Instance.delete_default))
      as (_ & Hs & Hr); [reflexivity|].
    rewrite <- Hs at 2. rewrite <- Hr; [by destruct (post_delete _ _ _ _)| |]; by vm_compute.
Defined.

Lemma public_routes_reveal_counts_only_witness :
  storage (boot Instance.users) <> storage (boot Instance.other_users) /\
  (post_list Instance.KEY_PREFIX (boot Instance.users) Instance.login_guest).2
    = (post_list Instance.KEY_PREFIX (boot Instance.other_users) Instance.login_guest).2.
Proof.
  split; [by vm_compute|].
  apply (public_routes_reveal_counts_only Instance.KEY_PREFIX
           (boot Instance.users) (boot Instance.other_users)
           Instance.login_guest Instance.login_guest); by vm_compute.
Defined.

(** * Further properties of the routes *)

(** ** Login *)

Section MoreLoginFacts.

Variable toKey : jsval -> string.
Variable getPasswordHash : jsval -> string -> option string.

Abbreviation post_login := (post_login toKey getPasswordHash).

(** X1.  Login only ever touches the login limiter: the storage, the
    recovery cache and the recovery limiter are the same after every
    login request, whatever its outcome. *)
Theorem login_writes_only_its_limiter (s : State) (req : Request) :
  storage (post_login s req).1.1 = storage s /\
  MFA_CACHE (post_login s req).1.1 = MFA_CACHE s /\
  recoverLimiter (post_login s req).1.1 = recoverLimiter s.
Proof.
  unfold post_login. repeat case_match; simpl; done.
Qed.

(** A request that names a stored, enabled account and carries its
    credential is let in, when the limiter lets it through. *)
Lemma post_login_accepts s req user :
  truthy (Body.handle (body req)) = true ->
  RateLimiter.remaining loginLimiter_opts (loginLimiter s) (ip req) (now req) <> O ->
  storage s !! toKey (Body.handle (body req)) = Some user ->
  User.enabled user = true ->
  getPasswordHash (Body.password (body req)) (User.salt user)
    = Some (User.password user) ->
  session req = true ->
  (post_login s req).2 = json 200 (JObj [("handle", JStr (User.handle user))]).
Proof.
  intros Hh Hr Hu He Hhash Hs. unfold post_login. rewrite Hh. simpl.
  destruct (RateLimiter.consume _ _ _ _) as [l'|] eqn:Hc;
    [|by apply consume_rejects_iff in Hc].
  simpl. rewrite Hu, He, Hhash, Hs. simpl. rewrite String.eqb_refl.
  by destruct (String.eqb (User.password user) "").
Qed.

(** X2.  Login authenticates exactly the holders of the credential.  A
    200 is only ever sent when the handle names a stored, enabled account
    whose hash is empty or equal to the hash of the supplied password
    under the stored salt, the request has a session, and the session is
    bound to the handle of that account.  Conversely such a request, when
    the limiter lets it through, is answered 200. *)
Theorem login_sound_and_complete (s : State) (req : Request) :
  (status_of (post_login s req).2 = 200 ->
   exists user,
     storage s !! toKey (Body.handle (body req)) = Some user /\
     User.enabled user = true /\
     (User.password user = "" \/
      getPasswordHash (Body.password (body req)) (User.salt user)
        = Some (User.password user)) /\
     session req = true /\
     (post_login s req).1.2 = Some (User.handle user) /\
     (post_login s req).2 = json 200 (JObj [("handle", JStr (User.handle user))])) /\
  (forall user,
     truthy (Body.handle (body req)) = true ->
     RateLimiter.remaining loginLimiter_opts (loginLimiter s) (ip req) (now req) <> O ->
     storage s !! toKey (Body.handle (body req)) = Some user ->
     User.enabled user = true ->
     getPasswordHash (Body.password (body req)) (User.salt user)
       = Some (User.password user) ->
     session req = true ->
     (post_login s req).2 = json 200 (JObj [("handle", JStr (User.handle user))])).
Proof.
  split.
  - unfold post_login.
    destruct (truthy (Body.handle (body req))); simpl; [|done].
    destruct (RateLimiter.consume _ _ _ _) as [l'|]; simpl; [|done].
    destruct (storage s !! _) as [user|]; simpl; [|done].
    destruct (User.enabled user) eqn:He; simpl; [|done].
    destruct (String.eqb_spec (User.password user) "") as [Hp|Hp]; simpl.
    + destruct (session req) eqn:Hs; simpl; [|done].
      intros _. exists user. split; [done|]. split; [done|]. split; [by left|done].
    + destruct (getPasswordHash _ _) as [h|] eqn:Hh; simpl; [|done].
      destruct (String.eqb_spec (User.password user) h) as [Heq|Hne]; simpl; [|done].
      destruct (session req) eqn:Hs; simpl; [|done].
      intros _. exists user. split; [done|]. split; [done|].
      split; [right; by rewrite Heq|done].
  - intros user. apply post_login_accepts.
Qed.

End MoreLoginFacts.

(** ** Recovery *)

Section MoreRecoveryFacts.

Variable toKey : jsval -> string.
Variable getPasswordHash : jsval -> string -> option string.

Abbreviation post_login := (post_login toKey getPasswordHash).
Abbreviation post_recover_step1 := (post_recover_step1 toKey).
Abbreviation post_recover_step2 := (post_recover_step2 toKey getPasswordHash).

(** The second step on the cached code: what it answers and what it
    leaves behind. *)
Lemma post_recover_step2_accepts s req user c :
  truthy (Body.handle (body req)) = true ->
  storage s !! toKey (Body.handle (body req)) = Some user ->
  User.enabled user = true ->
  Cache.get (MFA_CACHE s) (User.handle user) (now req) = Some c ->
  c <> "" ->
  Body.code (body req) = JStr c ->
  truthy (Body.newPassword (body req)) = false \/
    is_Some (getPasswordHash (Body.newPassword (body req)) (randomSalt req)) ->
  (post_recover_step2 s req).2 = sendStatus 204 /\
  recoverLimiter (post_recover_step2 s req).1
    = RateLimiter.delete (recoverLimiter s) (ip req) /\
  MFA_CACHE (post_recover_step2 s req).1 = Cache.remove (MFA_CACHE s) (User.handle user).
Proof.
  intros Hh Hu He Hc Hne Hcode Hp. unfold post_recover_step2.
  rewrite Hh, Hu, He, Hc, Hcode. simpl. rewrite String.eqb_refl.
  destruct (String.eqb_spec c ""); [done|]. simpl.
  destruct (truthy (Body.newPassword (body req))).
  - destruct Hp as [Hp|[h Hp]]; [done|]. by rewrite Hp.
  - done.
Qed.

(** X3.  The recovery limiter does not stand between a caller and the
    right code: the second step consults the limiter only after the
    comparison has failed.  A request that carries the cached code of an
    enabled account (and a new password that can be hashed, or none) is
    answered 204 whatever the buckets of the recovery limiter hold, also
    when its address has no budget left; afterwards the address has its
    full budget and the challenge is gone. *)
Theorem recover_step2_right_code_ignores_limiter
    (s : State) (req : Request) (user : User.t) (c : string) :
  truthy (Body.handle (body req)) = true ->
  storage s !! toKey (Body.handle (body req)) = Some user ->
  User.enabled user = true ->
  Cache.get (MFA_CACHE s) (User.handle user) (now req) = Some c ->
  c <> "" ->
  Body.code (body req) = JStr c ->
  truthy (Body.newPassword (body req)) = false \/
    is_Some (getPasswordHash (Body.newPassword (body req)) (randomSalt req)) ->
  forall l : gmap string RateLimiter.bucket,
    (post_recover_step2 (set_recoverLimiter s l) req).2 = sendStatus 204 /\
    (forall t, RateLimiter.remaining recoverLimiter_opts
                 (recoverLimiter (post_recover_step2 (set_recoverLimiter s l) req).1)
                 (ip req) t = 5%nat) /\
    (forall t, Cache.get (MFA_CACHE (post_recover_step2 (set_recoverLimiter s l) req).1)
                 (User.handle user) t = None).
Proof.
  intros Hh Hu He Hc Hne Hcode Hp l.
  destruct (post_recover_step2_accepts (set_recoverLimiter s l) req user c)
    as (H204 & Hl & Hca); try done.
  split; [done|]. split; intros t.
  - rewrite Hl. apply (delete_remaining recoverLimiter_opts).
  - rewrite Hca. apply cache_get_remove.
Qed.

(** A second step that is answered "Incorrect code" has taken a point
    and changed nothing else. *)
Lemma post_recover_step2_bad_code s req :
  (post_recover_step2 s req).2 = json 403 (error "Incorrect code") ->
  (post_recover_step2 s req).1 =
    set_recoverLimiter s
      (RateLimiter.after_consume recoverLimiter_opts (recoverLimiter s) (ip req) (now req)).
Proof.
  unfold post_recover_step2, RateLimiter.after_consume.
  repeat case_match; simpl; try done.
Qed.

Lemma run_cons (route : State -> Request -> State * Response) s req reqs :
  run route s (req :: reqs) =
    ((run route (route s req).1 reqs).1, (route s req).2 :: (run route (route s req).1 reqs).2).
Proof.
  simpl. destruct (route s req) as [s1 r]. simpl. by destruct (run route s1 reqs).
Qed.

Lemma bad_codes_charged reqs : forall s key e n,
  Forall (fun r => ip r = key /\ now r < e) reqs ->
  Forall (fun r => r = json 403 (error "Incorrect code")) (run post_recover_step2 s reqs).2 ->
  RateLimiter.charged recoverLimiter_opts (recoverLimiter s) key e n ->
  RateLimiter.charged recoverLimiter_opts
    (recoverLimiter (run post_recover_step2 s reqs).1) key e (n + length reqs) /\
  storage (run post_recover_step2 s reqs).1 = storage s /\
  MFA_CACHE (run post_recover_step2 s reqs).1 = MFA_CACHE s.
Proof.
  induction reqs as [|req reqs IH]; intros s key e n Hreqs Hbad Hn.
  - simpl. by rewrite Nat.add_0_r.
  - rewrite run_cons in Hbad |- *. simpl in Hbad |- *.
    apply Forall_cons in Hreqs as [(Hip & Ht) Hreqs].
    apply Forall_cons in Hbad as [Hb Hbad].
    replace (n + S (length reqs))%nat with (S n + length reqs)%nat by lia.
    pose proof (post_recover_step2_bad_code s req Hb) as Hs1.
    destruct (IH (post_recover_step2 s req).1 key e (S n)) as (Hc & Hst & Hca);
      [done|done| |].
    + rewrite Hs1. simpl. rewrite Hip. by apply charged_next.
    + split; [done|]. rewrite Hst, Hca, Hs1. done.
Qed.

(** X4.  Wrong codes are limited per address: after five second steps
    from one address that were answered 403 "Incorrect code" in one
    window of the recovery limiter (5 points per 300 seconds), a further
    wrong code from that address in the same window is answered 429, and
    the state is not changed by it. *)
Theorem recover_step2_sixth_wrong_code
    (s : State) (key : string) (first : Request) (rest : list Request)
    (req : Request) (user : User.t) :
  length rest = 4%nat ->
  Forall (fun r => ip r = key /\
                   now r < RateLimiter.window_end recoverLimiter_opts (recoverLimiter s)
                             key (now first))
         (first :: rest ++ [req]) ->
  Forall (fun r => r = json 403 (error "Incorrect code"))
         (run post_recover_step2 s (first :: rest)).2 ->
  truthy (Body.handle (body req)) = true ->
  truthy (Body.code (body req)) = true ->
  storage s !! toKey (Body.handle (body req)) = Some user ->
  User.enabled user = true ->
  strict_eq (Body.code (body req))
    (cached (Cache.get (MFA_CACHE s) (User.handle user) (now req))) = false ->
  post_recover_step2 (run post_recover_step2 s (first :: rest)).1 req =
    ((run post_recover_step2 s (first :: rest)).1, rate_limited_recover).
Proof.
  intros Hlen Hreqs Hbad Hh Hc Hu He Hm.
  set (e := RateLimiter.window_end _ _ _ _) in Hreqs.
  apply Forall_cons in Hreqs as [(Hip & Ht) Hreqs].
  apply Forall_app in Hreqs as [Hrest Hreq].
  apply Forall_singleton in Hreq as (Hip6 & Ht6).
  rewrite run_cons in Hbad |- *. simpl in Hbad |- *.
  apply Forall_cons in Hbad as [Hb Hbad].
  pose proof (post_recover_step2_bad_code s first Hb) as Hs1.
  destruct (bad_codes_charged rest (post_recover_step2 s first).1 key e 1)
    as (Hch & Hst & Hca); [done|done| |].
  { rewrite Hs1. simpl. rewrite Hip. subst e. apply charged_first. simpl. lia. }
  rewrite Hlen in Hch.
  assert (storage (post_recover_step2 s first).1 = storage s) as Hst1
    by by rewrite Hs1.
  assert (MFA_CACHE (post_recover_step2 s first).1 = MFA_CACHE s) as Hca1
    by by rewrite Hs1.
  rewrite (post_recover_step2_mismatch toKey getPasswordHash _ req user);
    rewrite ?Hst, ?Hca, ?Hst1, ?Hca1; try done.
  rewrite Hip6.
  by rewrite (charged_all_rejects recoverLimiter_opts _ key (now req) e Hch Ht6).
Qed.

End MoreRecoveryFacts.

Section RecoveryFlows.

Variable toKey : jsval -> string.
Variable getPasswordHash : jsval -> string -> option string.

Abbreviation post_login := (post_login toKey getPasswordHash).
Abbreviation post_recover_step1 := (post_recover_step1 toKey).
Abbreviation post_recover_step2 := (post_recover_step2 toKey getPasswordHash).

(** X5.  The first recovery step keeps the code to the server: the
    response, the storage and both limiters are the same whatever code is
    drawn, and the body of the response holds at most one of the four
    fixed error messages.  Only the cache depends on the code. *)
Theorem recover_step1_hides_code (s : State) (req : Request) (n : Z) :
  (post_recover_step1 s (with_randomInt req n)).2 = (post_recover_step1 s req).2 /\
  storage (post_recover_step1 s (with_randomInt req n)).1 = storage s /\
  loginLimiter (post_recover_step1 s (with_randomInt req n)).1 = loginLimiter s /\
  recoverLimiter (post_recover_step1 s (with_randomInt req n)).1
    = recoverLimiter (post_recover_step1 s req).1 /\
  Forall (fun x => x ∈ ["Missing required fields";
                         "Too many attempts. Try again later or contact your admin.";
                         "User not found"; "User is disabled"])
    (string_values (payload_of (post_recover_step1 s req).2)).
Proof.
  unfold post_recover_step1. simpl.
  repeat case_match; simpl; repeat split; try done; repeat constructor.
Qed.

(** X6.  The two recovery steps charge in different orders.  For a
    handle that names no account, or a disabled one, the second step
    answers without touching the state at all (no point is taken), while
    the first step, which consumes before it looks the account up, has
    taken one point from the address when it answers 404 or 403. *)
Theorem recover_unknown_account_charge (s : State) (req : Request) (n : nat) :
  storage s !! toKey (Body.handle (body req)) = None \/
    (exists u, storage s !! toKey (Body.handle (body req)) = Some u /\
               User.enabled u = false) ->
  (post_recover_step2 s req).1 = s /\
  (truthy (Body.handle (body req)) = true ->
   RateLimiter.remaining recoverLimiter_opts (recoverLimiter s) (ip req) (now req) = S n ->
   RateLimiter.remaining recoverLimiter_opts
     (recoverLimiter (post_recover_step1 s req).1) (ip req) (now req) = n /\
   (status_of (post_recover_step1 s req).2 = 404 \/
    status_of (post_recover_step1 s req).2 = 403)).
Proof.
  intros Hu. split.
  - unfold post_recover_step2.
    destruct (negb _ || negb _); [done|].
    destruct Hu as [->|(u & -> & He)]; [done|]. by rewrite He.
  - intros Hh Hr. unfold post_recover_step1. rewrite Hh. simpl.
    destruct (RateLimiter.consume _ _ _ _) as [l'|] eqn:Hc.
    + apply (consume_takes_one recoverLimiter_opts) in Hc; [|done].
      simpl. destruct Hu as [->|(u & -> & He)]; [|rewrite He]; simpl;
        (split; [lia|auto]).
    + apply consume_rejects_iff in Hc. congruence.
Qed.

(** X7.  Recovery and login round trip.  After a first step has issued a
    code for an account that is stored under the key of its own handle, a
    second step within the five minutes that carries the issued code and
    a new password stores the hash of that password under the salt drawn
    for the request, and a login with the new password, from an address
    with login budget left, is answered 200 with the handle of the
    account. *)
Theorem recover_then_login (s : State) (req1 req2 req3 : Request) (user : User.t) (h : string) :
  storage s !! toKey (Body.handle (body req1)) = Some user ->
  toKey (Body.handle (body req1)) = toKey (JStr (User.handle user)) ->
  (post_recover_step1 s req1).2 = sendStatus 204 ->
  Body.handle (body req2) = Body.handle (body req1) ->
  Body.code (body req2) = JStr (pretty (randomInt req1)) ->
  now req2 < now req1 + MFA_CACHE_ttl ->
  truthy (Body.newPassword (body req2)) = true ->
  getPasswordHash (Body.newPassword (body req2)) (randomSalt req2) = Some h ->
  Body.handle (body req3) = Body.handle (body req1) ->
  Body.password (body req3) = Body.newPassword (body req2) ->
  session req3 = true ->
  RateLimiter.remaining loginLimiter_opts (loginLimiter s) (ip req3) (now req3) <> O ->
  (post_recover_step2 (post_recover_step1 s req1).1 req2).2 = sendStatus 204 /\
  storage (post_recover_step2 (post_recover_step1 s req1).1 req2).1
    !! toKey (Body.handle (body req1))
    = Some (User.with_password user h (randomSalt req2)) /\
  (post_login (post_recover_step2 (post_recover_step1 s req1).1 req2).1 req3).2
    = json 200 (JObj [("handle", JStr (User.handle user))]).
Proof.
  intros Hu Hk H1 Hh2 Hc2 Ht2 Hp2 Hhash Hh3 Hp3 Hs3 Hr3.
  destruct (post_recover_step1_issued toKey s req1 H1)
    as (u & l' & Hh1 & Hl & Hu' & He & Hs1).
  assert (u = user) as -> by congruence.
  assert (post_recover_step2 (post_recover_step1 s req1).1 req2 =
          ({| storage := <[toKey (JStr (User.handle user)) :=
                             User.with_password user h (randomSalt req2)]> (storage s);
              MFA_CACHE := Cache.remove
                (Cache.set MFA_CACHE_ttl (MFA_CACHE s) (User.handle user)
                   (pretty (randomInt req1)) (now req1)) (User.handle user);
              loginLimiter := loginLimiter s;
              recoverLimiter := RateLimiter.delete l' (ip req2) |}, sendStatus 204)) as Hs2.
  { unfold post_recover_step2. rewrite Hs1. simpl.
    rewrite Hh2, Hh1, Hc2, truthy_issued_code, Hu, He. simpl.
    rewrite cache_get_set.
    replace (now req2 <? now req1 + MFA_CACHE_ttl) with true
      by (symmetry; apply Z.ltb_lt; lia).
    simpl. rewrite String.eqb_refl. simpl. by rewrite Hp2, Hhash. }
  rewrite Hs2. simpl. split; [done|]. split.
  - by rewrite Hk, lookup_insert_eq.
  - apply (post_login_accepts toKey getPasswordHash _ req3
             (User.with_password user h (randomSalt req2))); simpl; try done.
    + by rewrite Hh3.
    + by rewrite Hh3, Hk, lookup_insert_eq.
    + by rewrite Hp3.
Qed.

End RecoveryFlows.

(** ** The storage under all routes *)

Section StoreFacts.

Variable toKey : jsval -> string.
Variable getPasswordHash : jsval -> string -> option string.
Variable getAllUserHandles : gmap string User.t -> list string.
Variable slug : jsval -> string.
Variable DEFAULT_USER_handle : string.

Abbreviation post_login := (post_login toKey getPasswordHash).
Abbreviation post_recover_step1 := (post_recover_step1 toKey).
Abbreviation post_recover_step2 := (post_recover_step2 toKey getPasswordHash).
Abbreviation post_create := (post_create toKey getPasswordHash getAllUserHandles slug).
Abbreviation post_disable := (post_disable toKey).
Abbreviation post_enable := (post_enable toKey).
Abbreviation post_promote := (post_promote toKey).
Abbreviation post_demote := (post_demote toKey).
Abbreviation post_delete := (post_delete toKey DEFAULT_USER_handle).

Lemma store_consistent_insert (m : gmap string User.t) (k : string) (u : User.t) :
  store_consistent toKey m -> k = toKey (JStr (User.handle u)) ->
  store_consistent toKey (<[k := u]> m).
Proof.
  intros Hm Hk k' u'. rewrite lookup_insert. case_decide; [|by apply Hm].
  intros [= <-]. congruence.
Qed.

Lemma store_consistent_delete (m : gmap string User.t) (k : string) :
  store_consistent toKey m -> store_consistent toKey (delete k m).
Proof.
  intros Hm k' u'. rewrite lookup_delete. case_decide; [done|by apply Hm].
Qed.

(** X8.  Every record is stored under the key of its own handle, and
    every route keeps it so: when the storage has this property before a
    request, it has it after, for each of the routes that write. *)
Theorem routes_keep_store_consistent (s : State) (req : Request) :
  store_consistent toKey (storage s) ->
  store_consistent toKey (storage (post_login s req).1.1) /\
  store_consistent toKey (storage (post_recover_step1 s req).1) /\
  store_consistent toKey (storage (post_recover_step2 s req).1) /\
  store_consistent toKey (storage (post_create s req).1) /\
  store_consistent toKey (storage (post_disable s req).1) /\
  store_consistent toKey (storage (post_enable s req).1) /\
  store_consistent toKey (storage (post_promote s req).1) /\
  store_consistent toKey (storage (post_demote s req).1) /\
  store_consistent toKey (storage (post_delete s req).1).
Proof.
  intros Hs.
  assert (forall (f : User.t -> User.t),
            (forall u, User.handle (f u) = User.handle u) ->
            forall u, storage s !! toKey (Body.handle (body req)) = Some u ->
            store_consistent toKey
              (<[toKey (Body.handle (body req)) := f u]> (storage s))) as Hflag.
  { intros f Hf u Hu. apply store_consistent_insert; [done|].
    rewrite Hf. by apply Hs. }
  split_and!.
  - unfold post_login. repeat case_match; simpl; done.
  - unfold post_recover_step1. repeat case_match; simpl; done.
  - unfold post_recover_step2. repeat case_match; simpl; try done;
      simplify_eq; by apply store_consistent_insert.
  - unfold post_create. repeat case_match; simpl; try done;
      by apply store_consistent_insert.
  - unfold post_disable. repeat case_match; simpl; try done.
    by apply (Hflag (fun u => User.with_enabled u false)).
  - unfold post_enable. repeat case_match; simpl; try done.
    by apply (Hflag (fun u => User.with_enabled u true)).
  - unfold post_promote. repeat case_match; simpl; try done.
    by apply (Hflag (fun u => User.with_admin u true)).
  - unfold post_demote. repeat case_match; simpl; try done.
    by apply (Hflag (fun u => User.with_admin u false)).
  - unfold post_delete. repeat case_match; simpl; try done.
    by apply store_consistent_delete.
Qed.

(** X9.  Accounts appear and disappear only through create and delete:
    after login, either recovery step, enable, disable, promote or demote
    the storage holds exactly the keys it held before.  (For the second
    recovery step, which writes under the key of the handle it read, this
    needs the record to be stored under the key of its own handle.) *)
Theorem accounts_change_only_by_create_and_delete (s : State) (req : Request) :
  dom (storage (post_login s req).1.1) = dom (storage s) /\
  dom (storage (post_recover_step1 s req).1) = dom (storage s) /\
  (store_consistent toKey (storage s) ->
   dom (storage (post_recover_step2 s req).1) = dom (storage s)) /\
  dom (storage (post_disable s req).1) = dom (storage s) /\
  dom (storage (post_enable s req).1) = dom (storage s) /\
  dom (storage (post_promote s req).1) = dom (storage s) /\
  dom (storage (post_demote s req).1) = dom (storage s).
Proof.
  assert (forall (k : string) (u u' : User.t) (m : gmap string User.t),
            m !! k = Some u -> dom (<[k := u']> m) = dom m) as Hdom.
  { intros k u u' m Hk. rewrite dom_insert_L.
    apply subseteq_union_1_L, singleton_subseteq_l, elem_of_dom. eauto. }
  split_and!.
  - unfold post_login. repeat case_match; simpl; done.
  - unfold post_recover_step1. repeat case_match; simpl; done.
  - intros Hs. unfold post_recover_step2.
    repeat case_match; simpl; try done; simplify_eq;
      unfold User.with_password; simpl;
      match goal with
      | H : storage s !! _ = Some ?u |- _ =>
          rewrite <- (Hs _ _ H); by apply (Hdom _ u)
      end.
  - unfold post_disable. repeat case_match; simpl; try done; by eapply Hdom.
  - unfold post_enable. repeat case_match; simpl; try done; by eapply Hdom.
  - unfold post_promote. repeat case_match; simpl; try done; by eapply Hdom.
  - unfold post_demote. repeat case_match; simpl; try done; by eapply Hdom.
Qed.

End StoreFacts.

(** ** Administration *)

Section MoreAdminFacts.

Variable toKey : jsval -> string.
Variable getPasswordHash : jsval -> string -> option string.
Variable DEFAULT_USER_handle : string.

Abbreviation post_login := (post_login toKey getPasswordHash).
Abbreviation post_recover_step1 := (post_recover_step1 toKey).
Abbreviation post_recover_step2 := (post_recover_step2 toKey getPasswordHash).
Abbreviation post_disable := (post_disable toKey).
Abbreviation post_enable := (post_enable toKey).
Abbreviation post_promote := (post_promote toKey).
Abbreviation post_demote := (post_demote toKey).
Abbreviation post_delete := (post_delete toKey DEFAULT_USER_handle).

Lemma post_disable_spec : flag_route_spec toKey post_disable (fun u => User.with_enabled u false).
Proof.
  intros s req. unfold post_disable. repeat case_match; simpl; eauto.
Qed.

Lemma post_enable_spec : flag_route_spec toKey post_enable (fun u => User.with_enabled u true).
Proof.
  intros s req. unfold post_enable. repeat case_match; simpl; eauto.
Qed.

Lemma post_promote_spec : flag_route_spec toKey post_promote (fun u => User.with_admin u true).
Proof.
  intros s req. unfold post_promote. repeat case_match; simpl; eauto.
Qed.

Lemma post_demote_spec : flag_route_spec toKey post_demote (fun u => User.with_admin u false).
Proof.
  intros s req. unfold post_demote. repeat case_match; simpl; eauto.
Qed.

Lemma flag_route_rewrites_at_most route f s req :
  flag_route_spec toKey route f -> rewrites_at_most toKey f s req (route s req).1.
Proof.
  intros Hspec. destruct (Hspec s req) as [(_ & u & Hu & ->)|(_ & ->)].
  - repeat split. intros k. simpl.
    destruct (decide (k = toKey (Body.handle (body req)))) as [->|Hne].
    + right. split; [done|]. exists u. by rewrite lookup_insert_eq.
    + left. by rewrite lookup_insert_ne.
  - repeat split. by left.
Qed.

(** X10.  Enable, disable, promote and demote touch one flag of one
    record: after any such request the cache and both limiters are as
    before, every key other than the one of the requested handle holds
    what it held, and the record under that key is either unchanged or
    the old record with the one flag set.  Handle, name, creation time,
    hash and salt of every account stay as they are. *)
Theorem flag_routes_touch_one_flag (s : State) (req : Request) :
  rewrites_at_most toKey (fun u => User.with_enabled u false) s req (post_disable s req).1 /\
  rewrites_at_most toKey (fun u => User.with_enabled u true) s req (post_enable s req).1 /\
  rewrites_at_most toKey (fun u => User.with_admin u true) s req (post_promote s req).1 /\
  rewrites_at_most toKey (fun u => User.with_admin u false) s req (post_demote s req).1.
Proof.
  split_and!; apply flag_route_rewrites_at_most;
    [apply post_disable_spec|apply post_enable_spec
    |apply post_promote_spec|apply post_demote_spec].
Qed.

(** X11.  An unknown handle.  Enable, disable, promote and demote answer
    404 "User not found" and change nothing.  Delete does not look the
    account up: it answers 204 all the same, and the state is as
    before. *)
Theorem admin_unknown_handle (s : State) (req : Request) :
  truthy (Body.handle (body req)) = true ->
  strict_eq (Body.handle (body req)) (JStr (profile_handle req)) = false ->
  storage s !! toKey (Body.handle (body req)) = None ->
  post_disable s req = (s, json 404 (error "User not found")) /\
  post_enable s req = (s, json 404 (error "User not found")) /\
  post_promote s req = (s, json 404 (error "User not found")) /\
  post_demote s req = (s, json 404 (error "User not found")) /\
  (strict_eq (Body.handle (body req)) (JStr DEFAULT_USER_handle) = false ->
   post_delete s req = (s, sendStatus 204)).
Proof.
  intros Hh Hself Hu.
  unfold post_disable, post_enable, post_promote, post_demote, post_delete.
  rewrite Hh, Hself, Hu. simpl. split_and!; try done.
  intros ->. rewrite delete_id by done. by destruct s.
Qed.

(** X12.  A disabled account is shut out.  After a disable that was
    answered 204, a request that names the same handle is never logged
    in (403 "User is disabled" when the login limiter lets it through),
    gets no recovery code, and is answered 403 "User is disabled" by the
    second recovery step whatever code it carries. *)
Theorem disabled_account_is_shut_out (s : State) (req req' : Request) :
  (post_disable s req).2 = sendStatus 204 ->
  Body.handle (body req') = Body.handle (body req) ->
  status_of (post_login (post_disable s req).1 req').2 <> 200 /\
  (RateLimiter.remaining loginLimiter_opts (loginLimiter s) (ip req') (now req') <> O ->
   (post_login (post_disable s req).1 req').2 = json 403 (error "User is disabled")) /\
  (post_recover_step1 (post_disable s req).1 req').2 <> sendStatus 204 /\
  MFA_CACHE (post_recover_step1 (post_disable s req).1 req').1 = MFA_CACHE s /\
  (truthy (Body.code (body req')) = true ->
   (post_recover_step2 (post_disable s req).1 req').2 = json 403 (error "User is disabled")).
Proof.
  intros H204 Hh.
  destruct (post_disable_spec s req) as [(_ & u & Hu & Hs1)|(Hne & _)]; [|done].
  assert (truthy (Body.handle (body req)) = true) as Ht.
  { revert H204. unfold post_disable. by destruct (truthy _). }
  rewrite Hs1.
  unfold post_login, post_recover_step1, post_recover_step2. simpl.
  rewrite Hh, Ht, lookup_insert_eq. simpl. split_and!.
  - by destruct (RateLimiter.consume _ _ _ _).
  - intros Hr. destruct (RateLimiter.consume _ _ _ _) eqn:Hc; [done|].
    by apply consume_rejects_iff in Hc.
  - by destruct (RateLimiter.consume _ _ _ _).
  - by destruct (RateLimiter.consume _ _ _ _).
  - by intros ->.
Qed.

(** X13.  Disable and enable undo each other on the storage: for an
    account that was enabled, a disable answered 204 followed by an
    enable of the same handle leaves the storage exactly as it was; and
    so does promote followed by demote for an account that was not an
    administrator. *)
Theorem flag_round_trips (s : State) (req req' : Request) (u : User.t) :
  storage s !! toKey (Body.handle (body req)) = Some u ->
  Body.handle (body req') = Body.handle (body req) ->
  ((post_disable s req).2 = sendStatus 204 -> User.enabled u = true ->
   post_enable (post_disable s req).1 req' = (s, sendStatus 204)) /\
  ((post_promote s req).2 = sendStatus 204 -> User.admin u = false ->
   strict_eq (Body.handle (body req')) (JStr (profile_handle req')) = false ->
   post_demote (post_promote s req).1 req' = (s, sendStatus 204)).
Proof.
  intros Hu Hh. split.
  - intros H204 He.
    destruct (post_disable_spec s req) as [(_ & u' & Hu' & Hs1)|(Hne & _)]; [|done].
    assert (u' = u) as -> by congruence.
    assert (truthy (Body.handle (body req)) = true) as Ht.
    { revert H204. unfold post_disable. by destruct (truthy _). }
    rewrite Hs1. unfold post_enable. simpl. rewrite Hh, Ht, lookup_insert_eq. simpl.
    rewrite insert_insert_eq. f_equal.
    destruct s, u; simpl in *; subst. unfold set_storage, User.with_enabled; simpl.
    f_equal. by apply insert_id.
  - intros H204 Ha Hself.
    destruct (post_promote_spec s req) as [(_ & u' & Hu' & Hs1)|(Hne & _)]; [|done].
    assert (u' = u) as -> by congruence.
    assert (truthy (Body.handle (body req)) = true) as Ht.
    { revert H204. unfold post_promote. by destruct (truthy _). }
    rewrite Hs1. unfold post_demote. simpl. rewrite Hself, Hh, Ht, lookup_insert_eq. simpl.
    rewrite insert_insert_eq. f_equal.
    destruct s, u; simpl in *; subst. unfold set_storage, User.with_admin; simpl.
    f_equal. by apply insert_id.
Qed.

(** What a delete that is answered 204 has done. *)
Lemma post_delete_deleted s req :
  (post_delete s req).2 = sendStatus 204 ->
  truthy (Body.handle (body req)) = true /\
  (post_delete s req).1 =
    set_storage s (delete (toKey (Body.handle (body req))) (storage s)).
Proof.
  unfold post_delete.
  destruct (truthy (Body.handle (body req))); simpl; [|done].
  repeat case_match; simpl; done.
Qed.

(** X14.  A deleted account is gone for the public routes, but its
    challenge is not.  After a delete that was answered 204, a login that
    names the handle is answered 403 "Incorrect credentials" and a first
    recovery step 404 (when the limiters let them through), and a second
    recovery step 404; the delete itself leaves the cache, with any code
    that is outstanding for the handle, and both limiters as they
    were. *)
Theorem deleted_account_is_gone (s : State) (req req' : Request) :
  (post_delete s req).2 = sendStatus 204 ->
  Body.handle (body req') = Body.handle (body req) ->
  MFA_CACHE (post_delete s req).1 = MFA_CACHE s /\
  loginLimiter (post_delete s req).1 = loginLimiter s /\
  recoverLimiter (post_delete s req).1 = recoverLimiter s /\
  storage (post_delete s req).1 !! toKey (Body.handle (body req)) = None /\
  (RateLimiter.remaining loginLimiter_opts (loginLimiter s) (ip req') (now req') <> O ->
   (post_login (post_delete s req).1 req').2 = json 403 (error "Incorrect credentials")) /\
  (RateLimiter.remaining recoverLimiter_opts (recoverLimiter s) (ip req') (now req') <> O ->
   (post_recover_step1 (post_delete s req).1 req').2 = json 404 (error "User not found")) /\
  (truthy (Body.code (body req')) = true ->
   (post_recover_step2 (post_delete s req).1 req').2 = json 404 (error "User not found")).
Proof.
  intros H204 Hh.
  destruct (post_delete_deleted s req H204) as [Ht Hs1].
  rewrite Hs1.
  unfold post_login, post_recover_step1, post_recover_step2. simpl.
  rewrite Hh, Ht, lookup_delete_eq. simpl. split_and!; try done.
  - intros Hr. destruct (RateLimiter.consume _ _ _ _) eqn:Hc; [done|].
    by apply consume_rejects_iff in Hc.
  - intros Hr. destruct (RateLimiter.consume _ _ _ _) eqn:Hc; [done|].
    by apply consume_rejects_iff in Hc.
  - by intros ->.
Qed.

End MoreAdminFacts.

(** ** Account creation *)

Section CreateFlows.

Variable toKey : jsval -> string.
Variable getPasswordHash : jsval -> string -> option string.
Variable getAllUserHandles : gmap string User.t -> list string.
Variable slug : jsval -> string.
Variable DEFAULT_USER_handle : string.

Abbreviation post_login := (post_login toKey getPasswordHash).
Abbreviation post_recover_step1 := (post_recover_step1 toKey).
Abbreviation post_recover_step2 := (post_recover_step2 toKey getPasswordHash).
Abbreviation post_create := (post_create toKey getPasswordHash getAllUserHandles slug).
Abbreviation post_delete := (post_delete toKey DEFAULT_USER_handle).

(** What a create that is answered 200 has done. *)
Lemma post_create_created s req :
  status_of (post_create s req).2 = 200 ->
  exists password,
    truthy (Body.handle (body req)) = true /\
    truthy (Body.name (body req)) = true /\
    slug (Body.handle (body req)) <> "" /\
    (slug (Body.handle (body req)) ∉ getAllUserHandles (storage s)) /\
    (if truthy (Body.password (body req))
     then getPasswordHash (Body.password (body req)) (randomSalt req) = Some password
     else password = "") /\
    post_create s req =
      (set_storage s
         (<[toKey (JStr (slug (Body.handle (body req)))) :=
              {| User.handle := slug (Body.handle (body req));
                 User.name := Body.name (body req);
                 User.created := now req;
                 User.password := password;
                 User.salt := randomSalt req;
                 User.admin := (length (getAllUserHandles (storage s)) =? 0)%nat;
                 User.enabled := true |}]> (storage s)),
       json 200 (JObj [("handle", JStr (slug (Body.handle (body req))))])).
Proof.
  unfold post_create.
  destruct (truthy (Body.handle (body req))); simpl; [|done].
  destruct (truthy (Body.name (body req))); simpl; [|done].
  destruct (String.eqb_spec (slug (Body.handle (body req))) ""); simpl; [done|].
  destruct (existsb _ _) eqn:Hex; simpl; [done|].
  assert (slug (Body.handle (body req)) ∉ getAllUserHandles (storage s)) as Hnotin.
  { intros Hin. apply not_true_iff_false in Hex. apply Hex.
    apply existsb_exists. exists (slug (Body.handle (body req))).
    split; [by apply list_elem_of_In|apply String.eqb_refl]. }
  destruct (truthy (Body.password (body req))).
  - destruct (getPasswordHash _ _) as [h|]; simpl; [|done].
    destruct (directoriesCreated req); simpl; [|done].
    intros _. by exists h.
  - simpl. destruct (directoriesCreated req); simpl; [|done].
    intros _. by exists "".
Qed.

(** X15.  The account that a successful create stores: its handle is the
    slug of the requested handle, which is not empty and was not among
    the handles before; it is enabled; it is an administrator exactly
    when there was no handle before (the first account); the response
    carries the handle; and nothing else in the state changes, no other
    key of the storage included. *)
Theorem create_stores_new_account (s : State) (req : Request) :
  status_of (post_create s req).2 = 200 ->
  slug (Body.handle (body req)) <> "" /\
  (slug (Body.handle (body req)) ∉ getAllUserHandles (storage s)) /\
  (post_create s req).2 = json 200 (JObj [("handle", JStr (slug (Body.handle (body req))))]) /\
  (exists u,
     storage (post_create s req).1 !! toKey (JStr (slug (Body.handle (body req)))) = Some u /\
     User.handle u = slug (Body.handle (body req)) /\
     User.enabled u = true /\
     (User.admin u = true <-> getAllUserHandles (storage s) = [])) /\
  (forall k, k <> toKey (JStr (slug (Body.handle (body req)))) ->
     storage (post_create s req).1 !! k = storage s !! k) /\
  MFA_CACHE (post_create s req).1 = MFA_CACHE s /\
  loginLimiter (post_create s req).1 = loginLimiter s /\
  recoverLimiter (post_create s req).1 = recoverLimiter s.
Proof.
  intros Hok.
  destruct (post_create_created s req Hok) as (pw & _ & _ & Hne & Hnotin & _ & ->).
  simpl. split_and!; try done.
  - eexists. rewrite lookup_insert_eq. split; [done|]. simpl. split_and!; try done.
    rewrite Nat.eqb_eq. apply length_zero_iff_nil.
  - intros k Hk. by rewrite lookup_insert_ne.
Qed.

(** X16.  Create never replaces an account, and what a failed create
    leaves behind.  A request that is answered 400 or 409 leaves the
    whole state as it was; a request whose slug is among the handles is
    answered 409; and when the handle listing reports the handle of every
    stored key (here: of the key that the request would write), every
    record that was stored is still stored, unchanged, after the request,
    whatever the answer.  The write is not undone when the set-up of the
    data directories throws: the state after the request is the same
    whether it throws or not, so that a request which would have been
    answered 200 is answered 500 with the new record stored. *)
Theorem create_never_replaces (s : State) (req : Request) :
  (status_of (post_create s req).2 = 400 \/ status_of (post_create s req).2 = 409 ->
   (post_create s req).1 = s) /\
  (truthy (Body.handle (body req)) = true ->
   truthy (Body.name (body req)) = true ->
   slug (Body.handle (body req)) <> "" ->
   slug (Body.handle (body req)) ∈ getAllUserHandles (storage s) ->
   post_create s req = (s, json 409 (error "User already exists"))) /\
  ((is_Some (storage s !! toKey (JStr (slug (Body.handle (body req))))) ->
    slug (Body.handle (body req)) ∈ getAllUserHandles (storage s)) ->
   forall k u, storage s !! k = Some u -> storage (post_create s req).1 !! k = Some u) /\
  (forall b, (post_create s (with_directoriesCreated req b)).1 = (post_create s req).1) /\
  (status_of (post_create s req).2 = 200 ->
   (post_create s (with_directoriesCreated req false)).2 = sendStatus 500 /\
   is_Some (storage (post_create s (with_directoriesCreated req false)).1
              !! toKey (JStr (slug (Body.handle (body req)))))).
Proof.
  split_and!.
  - unfold post_create. repeat case_match; simpl; intros [?|?]; done.
  - intros Hh Hn Hne Hin. unfold post_create. rewrite Hh, Hn. simpl.
    destruct (String.eqb_spec (slug (Body.handle (body req))) ""); [done|].
    replace (existsb _ _) with true; [done|].
    symmetry. apply existsb_exists. exists (slug (Body.handle (body req))).
    split; [by apply list_elem_of_In|apply String.eqb_refl].
  - intros Hcomplete k u Hk. unfold post_create.
    destruct (negb _ || negb _); [done|].
    destruct (String.eqb_spec (slug (Body.handle (body req))) ""); [done|].
    destruct (existsb _ _) eqn:Hex; [done|].
    assert (k <> toKey (JStr (slug (Body.handle (body req))))) as Hk'.
    { intros ->. apply not_true_iff_false in Hex. apply Hex.
      apply existsb_exists. exists (slug (Body.handle (body req))).
      split; [apply list_elem_of_In, Hcomplete; eauto|apply String.eqb_refl]. }
    destruct (truthy (Body.password (body req)));
      [destruct (getPasswordHash _ _); [|done]|];
      destruct (directoriesCreated req); simpl; by rewrite lookup_insert_ne.
  - intros b. unfold post_create. simpl.
    repeat case_match; simpl; done.
  - intros Hok.
    destruct (post_create_created s req Hok) as (pw & Hh & Hn & Hne & Hnotin & Hpw & _).
    unfold post_create. simpl. rewrite Hh, Hn. simpl.
    destruct (String.eqb_spec (slug (Body.handle (body req))) ""); [done|].
    replace (existsb _ _) with false.
    2:{ symmetry. apply not_true_iff_false. intros Hex. apply Hnotin.
        apply existsb_exists in Hex as (x & Hx & ->%String.eqb_eq).
        by apply list_elem_of_In. }
    destruct (truthy (Body.password (body req))).
    + rewrite Hpw. simpl. split; [done|]. by rewrite lookup_insert_eq.
    + simpl. split; [done|]. by rewrite lookup_insert_eq.
Qed.

(** X17.  Create and login round trip.  After a create that was answered
    200, a login with the slug as handle and the same password field,
    with a session and from an address with login budget left, is
    answered 200 with that handle. *)
Theorem create_then_login (s : State) (req req' : Request) :
  status_of (post_create s req).2 = 200 ->
  Body.handle (body req') = JStr (slug (Body.handle (body req))) ->
  Body.password (body req') = Body.password (body req) ->
  session req' = true ->
  RateLimiter.remaining loginLimiter_opts (loginLimiter s) (ip req') (now req') <> O ->
  (post_login (post_create s req).1 req').2
    = json 200 (JObj [("handle", JStr (slug (Body.handle (body req))))]).
Proof.
  intros Hok Hh Hp Hs Hr.
  destruct (post_create_created s req Hok) as (pw & _ & _ & Hne & _ & Hpw & ->).
  unfold post_login. simpl. rewrite Hh, Hp. simpl.
  destruct (String.eqb_spec (slug (Body.handle (body req))) ""); [done|]. simpl.
  destruct (RateLimiter.consume _ _ _ _) eqn:Hc;
    [|by apply consume_rejects_iff in Hc].
  simpl. rewrite lookup_insert_eq. simpl.
  destruct (truthy (Body.password (body req))).
  - rewrite Hpw. rewrite String.eqb_refl.
    destruct (String.eqb pw ""); simpl; by rewrite Hs.
  - subst pw. simpl. by rewrite Hs.
Qed.

(** X18.  A recovery code outlives the account it was issued for.  A code
    is issued for an account stored under the key of its handle; the
    account is deleted; an account with the same handle is created.  A
    second recovery step that carries the old code, within five minutes
    of its issuance, is answered 204: it resets the password of the new
    account. *)
Theorem challenge_survives_delete_and_create
    (s : State) (req1 reqd reqc req2 : Request) (user : User.t) :
  storage s !! toKey (Body.handle (body req1)) = Some user ->
  Body.handle (body req1) = JStr (User.handle user) ->
  (post_recover_step1 s req1).2 = sendStatus 204 ->
  Body.handle (body reqd) = Body.handle (body req1) ->
  (post_delete (post_recover_step1 s req1).1 reqd).2 = sendStatus 204 ->
  slug (Body.handle (body reqc)) = User.handle user ->
  status_of (post_create (post_delete (post_recover_step1 s req1).1 reqd).1 reqc).2 = 200 ->
  Body.handle (body req2) = Body.handle (body req1) ->
  Body.code (body req2) = JStr (pretty (randomInt req1)) ->
  now req2 < now req1 + MFA_CACHE_ttl ->
  truthy (Body.newPassword (body req2)) = false \/
    is_Some (getPasswordHash (Body.newPassword (body req2)) (randomSalt req2)) ->
  storage (post_delete (post_recover_step1 s req1).1 reqd).1
    !! toKey (Body.handle (body req1)) = None /\
  (post_recover_step2
     (post_create (post_delete (post_recover_step1 s req1).1 reqd).1 reqc).1 req2).2
    = sendStatus 204.
Proof.
  intros Hu Hh1 H1 Hhd Hd Hslug Hc Hh2 Hcode Ht Hp.
  destruct (post_recover_step1_issued toKey s req1 H1)
    as (u & l' & Ht1 & Hl & Hu' & He & Hs1).
  assert (u = user) as -> by congruence.
  destruct (post_delete_deleted toKey DEFAULT_USER_handle _ reqd Hd) as [_ Hs2].
  split; [by rewrite Hs2, Hhd; apply lookup_delete_eq|].
  destruct (post_create_created _ reqc Hc) as (pw & _ & _ & Hne & _ & _ & Hs3).
  destruct (post_recover_step2_accepts toKey getPasswordHash
              (post_create (post_delete (post_recover_step1 s req1).1 reqd).1 reqc).1
              req2
              {| User.handle := slug (Body.handle (body reqc));
                 User.name := Body.name (body reqc);
                 User.created := now reqc;
                 User.password := pw;
                 User.salt := randomSalt reqc;
                 User.admin :=
                   (length (getAllUserHandles
                      (storage (post_delete (post_recover_step1 s req1).1 reqd).1)) =? 0)%nat;
                 User.enabled := true |}
              (pretty (randomInt req1)))
    as (H204 & _); try done.
  - rewrite Hh2, Hh1. simpl. rewrite <- Hslug.
    by destruct (String.eqb_spec (slug (Body.handle (body reqc))) "").
  - rewrite Hs3. simpl. by rewrite Hh2, Hh1, <- Hslug, lookup_insert_eq.
  - rewrite Hs3, Hs2, Hs1. simpl. rewrite Hslug, cache_get_set.
    by replace (now req2 <? now req1 + MFA_CACHE_ttl) with true
      by (symmetry; apply Z.ltb_lt; lia).
  - apply pretty_Z_nonempty.
Qed.

End CreateFlows.

(** ** The listing of the accounts *)

Lemma insert_by_created_Permutation v l : insert_by_created v l ≡ₚ v :: l.
Proof.
  induction l as [|w l IH]; simpl; [done|].
  destruct (ViewModel.created w <? ViewModel.created v); [|done].
  rewrite IH. apply Permutation_swap.
Qed.

Lemma sort_by_created_Permutation l : sort_by_created l ≡ₚ l.
Proof.
  induction l as [|v l IH]; simpl; [done|].
  by rewrite insert_by_created_Permutation, IH.
Qed.

Lemma insert_by_created_sorted v l :
  StronglySorted by_created l -> StronglySorted by_created (insert_by_created v l).
Proof.
  induction 1 as [|w l Hl IH Hw]; simpl.
  - repeat constructor.
  - destruct (ViewModel.created w <? ViewModel.created v) eqn:Hlt.
    + apply Z.ltb_lt in Hlt. constructor; [done|].
      rewrite insert_by_created_Permutation. constructor; [|done].
      unfold by_created. lia.
    + apply Z.ltb_ge in Hlt. constructor; [by constructor|].
      constructor; [done|].
      eapply Forall_impl; [exact Hw|]. unfold by_created. intros; simpl in *; lia.
Qed.

Lemma sort_by_created_sorted l : StronglySorted by_created (sort_by_created l).
Proof.
  induction l as [|v l IH]; simpl; [constructor|]. by apply insert_by_created_sorted.
Qed.

Lemma StronglySorted_sublist {A} (R : relation A) (l1 l2 : list A) :
  l1 `sublist_of` l2 -> StronglySorted R l2 -> StronglySorted R l1.
Proof.
  induction 1 as [|x l1 l2 Hsub IH|x l1 l2 Hsub IH]; intros Hs; [done|..].
  - apply StronglySorted_inv in Hs as [Hs Hx]. constructor; [by apply IH|].
    apply Forall_forall. intros y Hy. rewrite Forall_forall in Hx.
    apply Hx. by eapply elem_of_sublist.
  - apply StronglySorted_inv in Hs as [Hs _]. by apply IH.
Qed.

Lemma slice_sublist {A} (l : list A) (a b : Z) : slice l a b `sublist_of` l.
Proof.
  unfold slice. etrans; [apply sublist_take|apply sublist_drop].
Qed.

(** With indices that are not negative, a slice is a take of a drop. *)
Lemma slice_nonneg {A} (l : list A) (a n : Z) :
  0 <= a -> 0 <= n ->
  slice l a (a + n) = take (Z.to_nat n) (drop (Z.to_nat a) l).
Proof.
  intros Ha Hn. unfold slice.
  replace (a <? 0) with false by (symmetry; apply Z.ltb_ge; lia).
  replace (a + n <? 0) with false by (symmetry; apply Z.ltb_ge; lia).
  destruct (decide (Z.of_nat (length l) <= a)) as [Hle|Hgt].
  - rewrite !(drop_ge l) by lia. by rewrite !take_nil.
  - rewrite (Z.min_l a) by lia.
    destruct (decide (a + n <= Z.of_nat (length l))) as [Hle'|Hgt'].
    + rewrite Z.min_l by lia. f_equal. lia.
    + rewrite Z.min_r by lia.
      rewrite !take_ge; [done| |]; rewrite length_drop; lia.
Qed.

Section ListingFacts.

Variable KEY_PREFIX : string.
Variable getUserAvatar : string -> jsval.
Variable parseInt : jsval -> option Z.
Variable toLowerCase : string -> string.

Abbreviation user_values := (user_values KEY_PREFIX).
Abbreviation view_model := (view_model getUserAvatar).
Abbreviation viewModels := (viewModels KEY_PREFIX getUserAvatar).
Abbreviation matches := (matches toLowerCase).
Abbreviation filter_matching := (filter_matching toLowerCase).
Abbreviation filteredUsers := (filteredUsers KEY_PREFIX getUserAvatar toLowerCase).
Abbreviation parseInt_or := (parseInt_or parseInt).
Abbreviation listing := (listing KEY_PREFIX getUserAvatar parseInt toLowerCase).
Abbreviation post_get := (post_get KEY_PREFIX getUserAvatar parseInt toLowerCase).

Lemma filter_matching_sublist sq l r :
  filter_matching sq l = Some r -> r `sublist_of` l.
Proof.
  revert r. induction l as [|v l IH]; simpl; intros r.
  - intros [= <-]. constructor.
  - destruct (matches sq v) as [keep|]; [|done].
    destruct (filter_matching sq l) as [rest|]; [|done].
    intros [= <-]. destruct keep; constructor; by apply IH.
Qed.

Lemma filter_matching_elem_of sq l r :
  filter_matching sq l = Some r ->
  forall v, v ∈ r <-> v ∈ l /\ matches sq v = Some true.
Proof.
  revert r. induction l as [|v l IH]; simpl; intros r.
  - intros [= <-] w. split; [by intros ?%elem_of_nil|by intros [?%elem_of_nil _]].
  - destruct (matches sq v) as [keep|] eqn:Hm; [|done].
    destruct (filter_matching sq l) as [rest|]; [|done].
    intros [= <-] w. specialize (IH rest eq_refl w).
    destruct keep; rewrite ?elem_of_cons, IH.
    + split.
      * intros [->|[Hw Hmw]]; [by split; [left|]|by split; [right|]].
      * intros [[->|Hw] Hmw]; [by left|by right].
    + split.
      * intros [Hw Hmw]. by split; [right|].
      * intros [[->|Hw] Hmw]; [congruence|done].
Qed.

Lemma filter_matching_throws sq l :
  filter_matching sq l = None <-> exists v, v ∈ l /\ matches sq v = None.
Proof.
  induction l as [|v l IH]; simpl.
  - split; [done|]. by intros (v & ?%elem_of_nil & _).
  - destruct (matches sq v) as [keep|] eqn:Hm.
    + destruct (filter_matching sq l) as [rest|].
      * split; [done|]. intros (w & Hw & Hmw).
        apply elem_of_cons in Hw as [->|Hw]; [congruence|].
        assert (Some rest = None) as Hn by (apply IH; by exists w). done.
      * split; [|done]. intros _.
        destruct (proj1 IH eq_refl) as (w & Hw & Hmw).
        exists w. split; [by apply elem_of_cons; right|done].
    + split; [|done]. intros _. exists v. split; [apply elem_of_cons; by left|done].
Qed.

Lemma filteredUsers_sublist s sq all :
  filteredUsers s sq = Some all -> all `sublist_of` viewModels s.
Proof.
  unfold filteredUsers. destruct (truthy sq).
  - apply filter_matching_sublist.
  - by intros [= <-].
Qed.

(** What the listing is made of. *)
Lemma listing_inv s q l :
  listing s q = Some l ->
  exists all,
    filteredUsers s (if truthy (Query.searchQuery q) then Query.searchQuery q else JStr "")
      = Some all /\
    Listing.users l =
      slice all ((parseInt_or (Query.page q) 1 - 1) * parseInt_or (Query.pageSize q) 20)
            ((parseInt_or (Query.page q) 1 - 1) * parseInt_or (Query.pageSize q) 20
             + parseInt_or (Query.pageSize q) 20) /\
    Listing.total l = Z.of_nat (length all) /\
    Listing.page l = parseInt_or (Query.page q) 1 /\
    Listing.pageSize l = parseInt_or (Query.pageSize q) 20 /\
    Listing.totalPages l = ceil_div (Z.of_nat (length all)) (parseInt_or (Query.pageSize q) 20).
Proof.
  unfold listing. destruct (filteredUsers s _) as [all|]; [|done].
  intros [= <-]. by exists all.
Qed.

Lemma listing_users_sublist s q l :
  listing s q = Some l -> Listing.users l `sublist_of` viewModels s.
Proof.
  intros (all & Hall & -> & _)%listing_inv.
  etrans; [apply slice_sublist|by eapply filteredUsers_sublist].
Qed.

Lemma string_values_view_model (v : ViewModel.t) :
  string_values (ViewModel.to_json v)
    = ViewModel.handle v :: string_values (ViewModel.name v)
        ++ string_values (ViewModel.avatar v).
Proof.
  unfold ViewModel.to_json. simpl. by rewrite !app_nil_r.
Qed.

(** X19.  The listing reads and does not leak: the state is the same
    after the request, and every string that occurs as a value in the
    body of the response is the handle of a stored account, or occurs in
    its name or in its avatar.  The hash and the salt of an account are
    not among what is sent; of the password only whether there is one. *)
Theorem listing_hides_credentials (s : State) (q : Query.t) :
  (post_get s q).1 = s /\
  forall x, x ∈ string_values (payload_of (post_get s q).2) ->
    exists u, u ∈ user_values (storage s) /\
      (x = User.handle u \/ x ∈ string_values (User.name u) \/
       x ∈ string_values (getUserAvatar (User.handle u))).
Proof.
  unfold post_get. destruct (listing s q) as [l|] eqn:Hl; simpl;
    [|by split; [|intros ? ?%elem_of_nil]].
  split; [done|]. intros x. rewrite !app_nil_r.
  rewrite list_elem_of_In, in_flat_map. intros (j & Hj & Hx).
  apply in_map_iff in Hj as (v & <- & Hv).
  apply list_elem_of_In in Hv, Hx.
  eapply elem_of_sublist in Hv; [|by eapply listing_users_sublist].
  unfold viewModels in Hv.
  rewrite sort_by_created_Permutation in Hv.
  apply list_elem_of_fmap in Hv as (u & -> & Hu).
  exists u. split; [done|].
  rewrite string_values_view_model in Hx. simpl in Hx.
  apply elem_of_cons in Hx as [->|Hx]; [by left|].
  apply elem_of_app in Hx as [Hx|Hx]; auto.
Qed.

Lemma ceil_div_bounds (a b : Z) :
  0 < b -> (ceil_div a b - 1) * b < a <= ceil_div a b * b.
Proof.
  intros Hb. unfold ceil_div.
  pose proof (Z.div_mod (- a) b) as Hdm.
  pose proof (Z.mod_pos_bound (- a) b Hb) as Hmod. nia.
Qed.

(** X20.  A page of the listing.  For a page number p >= 1 and a page
    size ps >= 1 the response echoes both, holds
    max 0 (min ps (total - (p - 1) * ps)) accounts, and its page count is
    the ceiling of total / ps: (totalPages - 1) * ps < total <=
    totalPages * ps. *)
Theorem listing_page_size (s : State) (q : Query.t) (l : Listing.t) (p ps : Z) :
  parseInt (Query.page q) = Some p -> 1 <= p ->
  parseInt (Query.pageSize q) = Some ps -> 1 <= ps ->
  listing s q = Some l ->
  Listing.page l = p /\ Listing.pageSize l = ps /\
  Z.of_nat (length (Listing.users l))
    = Z.max 0 (Z.min ps (Listing.total l - (p - 1) * ps)) /\
  (Listing.totalPages l - 1) * ps < Listing.total l <= Listing.totalPages l * ps.
Proof.
  intros Hp Hp1 Hps Hps1 (all & _ & Hu & Ht & Hpg & Hsz & Htp)%listing_inv.
  assert (parseInt_or (Query.page q) 1 = p) as Hpo.
  { unfold parseInt_or. rewrite Hp.
    by replace (p =? 0) with false by (symmetry; apply Z.eqb_neq; lia). }
  assert (parseInt_or (Query.pageSize q) 20 = ps) as Hpso.
  { unfold parseInt_or. rewrite Hps.
    by replace (ps =? 0) with false by (symmetry; apply Z.eqb_neq; lia). }
  rewrite Hpo, Hpso in *. split; [done|]. split; [done|]. split.
  - rewrite Hu, slice_nonneg by nia.
    rewrite length_take, length_drop, Ht. nia.
  - rewrite Htp, Ht. apply ceil_div_bounds. lia.
Qed.

(** The pages 1, ..., n of size [ps], one after the other. *)
Lemma pages_concat {A} (all : list A) (ps : nat) (n : nat) :
  concat (map (fun i => take ps (drop (i * ps) all)) (seq 0 n)) = take (n * ps) all.
Proof.
  induction n as [|n IH]; [done|].
  rewrite seq_S, map_app, concat_app, IH. simpl. rewrite app_nil_r.
  rewrite take_take_drop. f_equal. lia.
Qed.

(** X21.  Paging loses nothing and repeats nothing: for a page size
    ps >= 1, the pages 1, 2, ..., totalPages of one search, one after the
    other, are exactly the accounts that match, in their order.  (Page
    numbers up to the page count are assumed to be read back by
    [parseInt] as they are.) *)
Theorem listing_pages_partition
    (s : State) (search size : jsval) (ps : Z) (all : list ViewModel.t) :
  parseInt size = Some ps -> 1 <= ps ->
  (forall p, 1 <= p <= ceil_div (Z.of_nat (length all)) ps -> parseInt (JNum p) = Some p) ->
  filteredUsers s (if truthy search then search else JStr "") = Some all ->
  concat (map (fun p => match listing s (Query.Make (JNum p) size search) with
                        | Some l => Listing.users l
                        | None => []
                        end)
              (seqZ 1 (ceil_div (Z.of_nat (length all)) ps)))
    = all.
Proof.
  intros Hps Hps1 Hparse Hall.
  pose proof (ceil_div_bounds (Z.of_nat (length all)) ps ltac:(lia)) as Hb.
  set (n := ceil_div (Z.of_nat (length all)) ps) in *.
  assert (0 <= n) as Hn by nia.
  transitivity (concat (map (fun i => take (Z.to_nat ps) (drop (i * Z.to_nat ps) all))
                            (seq 0 (Z.to_nat n)))).
  - f_equal. unfold seqZ. rewrite <- list_fmap_compose.
    apply map_ext_in. intros i Hi%in_seq. simpl.
    unfold listing. simpl. rewrite Hall. simpl.
    unfold parseInt_or. rewrite Hps, Hparse by lia.
    replace (ps =? 0) with false by (symmetry; apply Z.eqb_neq; lia).
    replace (Z.of_nat i + 1 =? 0) with false by (symmetry; apply Z.eqb_neq; lia).
    rewrite slice_nonneg by nia. do 2 f_equal. nia.
  - rewrite pages_concat. apply take_ge. nia.
Qed.

(** X22.  Every page is in the order of creation: no account on a page
    was created later than an account that comes after it. *)
Theorem listing_sorted (s : State) (q : Query.t) (l : Listing.t) :
  listing s q = Some l -> StronglySorted by_created (Listing.users l).
Proof.
  intros Hl. eapply StronglySorted_sublist; [by eapply listing_users_sublist|].
  apply sort_by_created_sorted.
Qed.

Lemma filter_matching_filter sq l r :
  filter_matching sq l = Some r ->
  r = List.filter (fun v => if matches sq v is Some true then true else false) l.
Proof.
  revert r. induction l as [|v l IH]; simpl; intros r.
  - by intros [= <-].
  - destruct (matches sq v) as [keep|]; [|done].
    destruct (filter_matching sq l) as [rest|]; [|done].
    intros [= <-]. rewrite <- (IH rest eq_refl). by destruct keep.
Qed.

(** X23.  The search of the listing.  With a search query, the request
    is answered 500 exactly when the test throws on some account: the
    query is not a string, or the name of the account is not.  Otherwise
    the total is the number of accounts whose lower-cased name or handle
    includes the lower-cased query, whatever the page and the page size
    are, and only such accounts are on the page. *)
Theorem listing_search (s : State) (q : Query.t) :
  truthy (Query.searchQuery q) = true ->
  ((post_get s q).2 = sendStatus 500 <->
   exists v, v ∈ viewModels s /\ matches (Query.searchQuery q) v = None) /\
  (forall l, listing s q = Some l ->
     Listing.total l =
       Z.of_nat (length (List.filter
         (fun v => if matches (Query.searchQuery q) v is Some true then true else false)
         (viewModels s))) /\
     Forall (fun v => matches (Query.searchQuery q) v = Some true) (Listing.users l)).
Proof.
  intros Hsq. split.
  - unfold post_get, listing, filteredUsers. rewrite Hsq, Hsq.
    destruct (filter_matching _ _) as [all|] eqn:Hall; simpl.
    + split; [done|]. intros Hex. apply filter_matching_throws in Hex. congruence.
    + split; [|done]. intros _. by apply filter_matching_throws.
  - intros l (all & Hall & Hu & Ht & _)%listing_inv.
    rewrite Hsq in Hall. unfold filteredUsers in Hall. rewrite Hsq in Hall.
    split.
    + rewrite Ht. by rewrite (filter_matching_filter _ _ _ Hall) at 1.
    + apply Forall_forall. intros v Hv. rewrite Hu in Hv.
      eapply elem_of_sublist in Hv; [|apply slice_sublist].
      by apply (filter_matching_elem_of _ _ _ Hall).
Qed.

(** X24.  Without a search query the listing cannot fail, and its total
    is the number of accounts, the same number that the public count
    route reports as total. *)
Theorem listing_total_is_count (s : State) (q : Query.t) (req : Request) :
  truthy (Query.searchQuery q) = false ->
  exists l enabled,
    listing s q = Some l /\
    (post_get s q).2 = json 200 (Listing.to_json l) /\
    Listing.total l = Z.of_nat (length (user_values (storage s))) /\
    (get_count KEY_PREFIX s req).2
      = json 200 (JObj [("total", JNum (Listing.total l)); ("enabled", JNum enabled)]).
Proof.
  intros Hsq. unfold post_get, listing, filteredUsers. rewrite Hsq. simpl.
  eexists _, _. split; [done|]. split; [done|]. simpl.
  unfold viewModels. rewrite sort_by_created_Permutation, length_map.
  split; [done|]. unfold get_count. simpl. done.
Qed.

(** X25.  The page size is not validated.  With a negative page size
    -k on the first page, the response holds every matching account but
    the last k, however many these are, and a page count that is not
    positive. *)
Theorem listing_negative_page_size (s : State) (q : Query.t) (l : Listing.t) (ps : Z) :
  parseInt_or (Query.page q) 1 = 1 ->
  parseInt (Query.pageSize q) = Some ps -> ps < 0 ->
  listing s q = Some l ->
  exists all,
    filteredUsers s (if truthy (Query.searchQuery q) then Query.searchQuery q else JStr "")
      = Some all /\
    Listing.users l = take (Z.to_nat (Z.of_nat (length all) + ps)) all /\
    Listing.totalPages l <= 0.
Proof.
  intros Hp Hps Hneg (all & Hall & Hu & _ & _ & _ & Htp)%listing_inv.
  assert (parseInt_or (Query.pageSize q) 20 = ps) as Hpso.
  { unfold parseInt_or. rewrite Hps.
    by replace (ps =? 0) with false by (symmetry; apply Z.eqb_neq; lia). }
  rewrite Hp, Hpso in *. exists all. split; [done|]. split.
  - rewrite Hu. replace ((1 - 1) * ps) with 0 by lia. rewrite Z.add_0_l.
    unfold slice. simpl.
    replace (ps <? 0) with true by (symmetry; apply Z.ltb_lt; lia).
    rewrite Z.min_l by lia. simpl. f_equal. lia.
  - rewrite Htp. unfold ceil_div.
    rewrite <- (Z.opp_involutive ps) at 1. rewrite Z.div_opp_opp by lia.
    pose proof (Z.div_pos (Z.of_nat (length all)) (- ps)). lia.
Qed.

End ListingFacts.

Section ListingAndCreate.

Variable KEY_PREFIX : string.
Variable toKey : jsval -> string.
Variable getPasswordHash : jsval -> string -> option string.
Variable getAllUserHandles : gmap string User.t -> list string.
Variable slug : jsval -> string.
Variable getUserAvatar : string -> jsval.
Variable parseInt : jsval -> option Z.
Variable toLowerCase : string -> string.

Abbreviation post_create := (post_create toKey getPasswordHash getAllUserHandles slug).
Abbreviation post_get := (post_get KEY_PREFIX getUserAvatar parseInt toLowerCase).

Lemma elem_of_user_values (m : gmap string User.t) (u : User.t) :
  u ∈ user_values KEY_PREFIX m <->
  exists k, m !! k = Some u /\ startsWith k KEY_PREFIX = true.
Proof.
  unfold user_values. rewrite list_elem_of_fmap. split.
  - intros ([k v] & -> & Hkv). apply elem_of_map_to_list in Hkv.
    apply map_lookup_filter_Some in Hkv as [Hk HP]. by exists k.
  - intros (k & Hk & HP). exists (k, u). split; [done|].
    apply elem_of_map_to_list. by apply map_lookup_filter_Some.
Qed.

(** X26.  Create does not check the type of the name, and the search of
    the listing needs it to be a string.  After a create that was
    answered 200 for a name that is not a string (a number, say), stored
    under a key with the prefix of the accounts, every listing request
    with a search query is answered 500. *)
Theorem non_string_name_breaks_search (s : State) (req : Request) (q : Query.t) :
  status_of (post_create s req).2 = 200 ->
  (forall x, Body.name (body req) <> JStr x) ->
  startsWith (toKey (JStr (slug (Body.handle (body req))))) KEY_PREFIX = true ->
  truthy (Query.searchQuery q) = true ->
  post_get (post_create s req).1 q = ((post_create s req).1, sendStatus 500).
Proof.
  intros Hok Hname Hprefix Hsq.
  destruct (post_create_created toKey getPasswordHash getAllUserHandles slug s req Hok)
    as (pw & _ & _ & _ & _ & _ & Hs1).
  set (u := {| User.handle := slug (Body.handle (body req));
               User.name := Body.name (body req);
               User.created := now req;
               User.password := pw;
               User.salt := randomSalt req;
               User.admin := (length (getAllUserHandles (storage s)) =? 0)%nat;
               User.enabled := true |}) in Hs1.
  assert (u ∈ user_values KEY_PREFIX (storage (post_create s req).1)) as Hu.
  { apply elem_of_user_values. eexists. split; [|exact Hprefix].
    rewrite Hs1. simpl. apply lookup_insert_eq. }
  assert (listing KEY_PREFIX getUserAvatar parseInt toLowerCase (post_create s req).1 q
          = None) as Hl.
  { unfold listing, filteredUsers. rewrite Hsq, Hsq.
    replace (filter_matching _ _ _) with (@None (list ViewModel.t)); [done|].
    symmetry. apply filter_matching_throws. exists (view_model getUserAvatar u).
    split.
    - unfold viewModels. rewrite sort_by_created_Permutation.
      apply list_elem_of_fmap. by exists u.
    - unfold matches. simpl.
      destruct (Body.name (body req)) as [| |b|n|x|items|fields] eqn:Hn; try done.
      by destruct (Hname x). }
  unfold post_get. by rewrite Hl.
Qed.

End ListingAndCreate.

(** ** The page buttons of the administration panel *)

Import Pagination.

Lemma page_numbers_window (currentPage : Z) (l : list Z) :
  page_numbers
    ((fun i => Button (Page i) false (i =? currentPage)
                 (if i =? currentPage then None else Some i)) <$> l)
  = l.
Proof.
  induction l as [|i l IH]; [done|].
  unfold page_numbers in *. rewrite fmap_cons. simpl. f_equal. exact IH.
Qed.

Lemma seqZ_sorted (lo len : Z) : StronglySorted Z.lt (seqZ lo len).
Proof.
  unfold seqZ. generalize 0%nat as k.
  induction (Z.to_nat len) as [|n IH]; intros k; simpl; constructor.
  - apply IH.
  - apply Forall_forall. intros x (j & -> & Hj%elem_of_seq)%list_elem_of_fmap. lia.
Qed.

(** A click that changes the current page sets it to another page
    between 1 and the page count. *)
Lemma renderPagination_clicks (currentPage totalPages : Z) :
  1 <= currentPage <= totalPages ->
  Forall (fun b => forall t, click b = Some t ->
                     1 <= t <= totalPages /\ t <> currentPage)
    (renderPagination currentPage totalPages).
Proof.
  intros Hr. unfold renderPagination.
  apply Forall_cons. split.
  { simpl. intros t. destruct (Z.gtb_spec currentPage 1); [|done].
    intros [= <-]. lia. }
  rewrite !Forall_app. split_and!.
  - destruct (Z.gtb_spec currentPage 3); [|constructor].
    apply Forall_cons. split; [simpl; intros t [= <-]; lia|].
    destruct (currentPage >? 4); repeat constructor; done.
  - apply Forall_forall. intros b (i & -> & Hi%elem_of_seqZ)%list_elem_of_fmap.
    simpl. intros t. destruct (Z.eqb_spec i currentPage); [done|].
    intros [= <-]. lia.
  - destruct (Z.ltb_spec currentPage (totalPages - 2)); [|constructor].
    apply Forall_app. split.
    + destruct (currentPage <? totalPages - 3); repeat constructor; done.
    + apply Forall_singleton. simpl. intros t [= <-]. lia.
  - apply Forall_singleton. simpl. intros t.
    destruct (Z.ltb_spec currentPage totalPages); [|done]. intros [= <-]. lia.
Qed.

(** X27.  Every click leads to an existing page.  With the current page
    between 1 and the page count, a click on any button of the
    pagination either changes nothing or sets the current page to another
    page between 1 and the page count; the previous and the next button
    lead to the neighbours and change nothing on the first and on the
    last page, where they are shown as disabled. *)
Theorem pagination_clicks_stay_in_range (currentPage totalPages : Z) :
  1 <= currentPage <= totalPages ->
  Forall (fun b => forall t, click b = Some t ->
                     1 <= t <= totalPages /\ t <> currentPage)
    (renderPagination currentPage totalPages) /\
  head (renderPagination currentPage totalPages)
    = Some (Button Prev (currentPage =? 1) false
              (if decide (currentPage = 1) then None else Some (currentPage - 1))) /\
  last (renderPagination currentPage totalPages)
    = Some (Button Next (currentPage =? totalPages) false
              (if decide (currentPage = totalPages) then None else Some (currentPage + 1))).
Proof.
  intros Hr. split; [by apply renderPagination_clicks|].
  unfold renderPagination. split.
  - simpl. do 2 f_equal.
    destruct (Z.gtb_spec currentPage 1), (decide (currentPage = 1)); try done; lia.
  - rewrite app_comm_cons, !app_assoc, last_snoc. do 2 f_equal.
    destruct (Z.ltb_spec currentPage totalPages), (decide (currentPage = totalPages));
      try done; lia.
Qed.

(** X28.  The page numbers of the pagination.  With the current page
    between 1 and the page count, the numbers that are shown grow
    strictly from left to right (none is shown twice), the first is 1,
    the last is the page count, and the current page is among them;
    the button of the current page, and no other button, is marked
    active. *)
Theorem pagination_page_numbers (currentPage totalPages : Z) :
  1 <= currentPage <= totalPages ->
  StronglySorted Z.lt (page_numbers (renderPagination currentPage totalPages)) /\
  head (page_numbers (renderPagination currentPage totalPages)) = Some 1 /\
  last (page_numbers (renderPagination currentPage totalPages)) = Some totalPages /\
  currentPage ∈ page_numbers (renderPagination currentPage totalPages) /\
  Forall (fun b => active b = true <-> shows b = Page currentPage)
    (renderPagination currentPage totalPages).
Proof.
  intros Hr.
  set (lo := Z.max 1 (currentPage - 2)).
  set (hi := Z.min totalPages (currentPage + 2)).
  assert (page_numbers (renderPagination currentPage totalPages) =
          ((if currentPage >? 3 then [1] else [])
             ++ seqZ lo (hi - lo + 1)
             ++ (if currentPage <? totalPages - 2 then [totalPages] else []))%list) as Hnum.
  { unfold renderPagination, page_numbers. fold lo hi. simpl.
    rewrite !omap_app. fold page_numbers. rewrite page_numbers_window. simpl.
    rewrite app_nil_r. f_equal; [|f_equal].
    - destruct (currentPage >? 3); [|done]. by destruct (currentPage >? 4).
    - destruct (currentPage <? totalPages - 2); [|done].
      by destruct (currentPage <? totalPages - 3). }
  assert (0 < hi - lo + 1) as Hlen by lia.
  assert (seqZ lo (hi - lo + 1) = (seqZ lo (hi - lo) ++ [hi])%list) as Hsnoc.
  { replace (hi - lo + 1) with (Z.of_nat (S (Z.to_nat (hi - lo)))) by lia.
    rewrite seqZ_S. f_equal; [f_equal; lia|f_equal; lia]. }
  split_and!.
  - rewrite Hnum. apply StronglySorted_app_2.
    + intros x y Hx Hy.
      destruct (Z.gtb_spec currentPage 3); [|by apply elem_of_nil in Hx].
      apply list_elem_of_singleton in Hx as ->.
      apply elem_of_app in Hy as [Hy%elem_of_seqZ|Hy]; [lia|].
      destruct (Z.ltb_spec currentPage (totalPages - 2));
        [|by apply elem_of_nil in Hy].
      apply list_elem_of_singleton in Hy as ->. lia.
    + destruct (currentPage >? 3); repeat constructor.
    + apply StronglySorted_app_2.
      * intros x y Hx%elem_of_seqZ Hy.
        destruct (Z.ltb_spec currentPage (totalPages - 2));
          [|by apply elem_of_nil in Hy].
        apply list_elem_of_singleton in Hy as ->. lia.
      * apply seqZ_sorted.
      * destruct (currentPage <? totalPages - 2); repeat constructor.
  - rewrite Hnum. destruct (Z.gtb_spec currentPage 3); [done|]. simpl.
    rewrite seqZ_cons by done. simpl. f_equal. lia.
  - rewrite Hnum, Hsnoc.
    destruct (Z.ltb_spec currentPage (totalPages - 2)).
    + by rewrite !app_assoc, last_snoc.
    + rewrite app_nil_r, app_assoc, last_snoc. f_equal. lia.
  - rewrite Hnum. apply elem_of_app. right. apply elem_of_app. left.
    apply elem_of_seqZ. lia.
  - unfold renderPagination. apply Forall_cons. split; [done|].
    rewrite !Forall_app. split_and!.
    + destruct (Z.gtb_spec currentPage 3); [|constructor].
      apply Forall_cons. split.
      * simpl. split; [done|]. intros [= ?]. lia.
      * destruct (currentPage >? 4); repeat constructor; done.
    + apply Forall_forall. intros b (i & -> & Hi)%list_elem_of_fmap. simpl.
      destruct (Z.eqb_spec i currentPage) as [->|Hne]; [done|].
      split; [done|]. by intros [= ?].
    + destruct (Z.ltb_spec currentPage (totalPages - 2)); [|constructor].
      apply Forall_app. split.
      * destruct (currentPage <? totalPages - 3); repeat constructor; done.
      * repeat constructor; [done|]. simpl. intros [= ?]. lia.
    + repeat constructor; done.
Qed.

(** ** The further properties on concrete requests *)

Lemma login_sound_and_complete_witness :
  (Instance.login (boot Instance.users) Sample.login_alice).2
    = json 200 (JObj [("handle", JStr "alice")]).
Proof.
  apply (proj2 (login_sound_and_complete Instance.toKey Instance.getPasswordHash
                  (boot Instance.users) Sample.login_alice) Instance.alice);
    try reflexivity.
  by vm_compute.
Defined.

Lemma recover_step2_right_code_ignores_limiter_witness :
  RateLimiter.remaining recoverLimiter_opts Sample.exhausted "10.0.0.7" 1000 = O /\
  (Instance.recover2 (set_recoverLimiter Instance.issued Sample.exhausted)
     (Instance.verify 1000)).2 = sendStatus 204.
Proof.
  split; [reflexivity|].
  apply (recover_step2_right_code_ignores_limiter Instance.toKey Instance.getPasswordHash
           Instance.issued (Instance.verify 1000) Instance.alice "4821").
  - reflexivity.
  - reflexivity.
  - reflexivity.
  - reflexivity.
  - discriminate.
  - reflexivity.
  - left. reflexivity.
Defined.

Lemma recover_step2_sixth_wrong_code_witness :
  Instance.recover2
    (run Instance.recover2 (boot Instance.users)
       (Sample.wrong_code 1000 ::
        [Sample.wrong_code 2000; Sample.wrong_code 3000;
         Sample.wrong_code 4000; Sample.wrong_code 5000])).1
    (Sample.wrong_code 6000)
  = ((run Instance.recover2 (boot Instance.users)
        (Sample.wrong_code 1000 ::
         [Sample.wrong_code 2000; Sample.wrong_code 3000;
          Sample.wrong_code 4000; Sample.wrong_code 5000])).1,
     rate_limited_recover).
Proof.
  apply (recover_step2_sixth_wrong_code Instance.toKey Instance.getPasswordHash
           (boot Instance.users) "10.0.0.7" (Sample.wrong_code 1000)
           [Sample.wrong_code 2000; Sample.wrong_code 3000;
            Sample.wrong_code 4000; Sample.wrong_code 5000]
           (Sample.wrong_code 6000) Instance.alice); try reflexivity.
  - repeat constructor.
  - repeat constructor.
Defined.

Lemma recover_unknown_account_charge_witness :
  (Instance.recover2 (boot Instance.users) Sample.unknown).1 = boot Instance.users /\
  RateLimiter.remaining recoverLimiter_opts
    (recoverLimiter (Instance.recover1 (boot Instance.users) Sample.unknown).1)
    "10.0.0.7" 0 = 4%nat.
Proof.
  destruct (recover_unknown_account_charge Instance.toKey Instance.getPasswordHash
              (boot Instance.users) Sample.unknown 4) as [H2 H1].
  - left. reflexivity.
  - split; [exact H2|]. apply H1; reflexivity.
Defined.

Lemma recover_then_login_witness :
  (Instance.login
     (Instance.recover2 (Instance.recover1 (boot Instance.users) Instance.issue).1
        Sample.reset_alice).1
     Sample.login_alice_fresh).2
  = json 200 (JObj [("handle", JStr "alice")]).
Proof.
  apply (recover_then_login Instance.toKey Instance.getPasswordHash
           (boot Instance.users) Instance.issue Sample.reset_alice
           Sample.login_alice_fresh Instance.alice
           "H(fresh,c2FsdHNhbHRzYWx0c2FsdA==)"); try reflexivity.
  by vm_compute.
Defined.

Lemma sample_store_consistent : store_consistent Instance.toKey Instance.users.
Proof.
  intros k u Hk.
  assert (map_Forall (fun k u => k = Instance.toKey (JStr (User.handle u))) Instance.users)
    as Hall by (apply (bool_decide_unpack _); by vm_compute).
  by apply Hall.
Qed.

Lemma routes_keep_store_consistent_witness :
  store_consistent Instance.toKey
    (storage (Instance.create (boot Instance.users) Sample.create_dora).1).
Proof.
  destruct (routes_keep_store_consistent Instance.toKey Instance.getPasswordHash
              Instance.getAllUserHandles Instance.slug Instance.DEFAULT_USER_handle
              (boot Instance.users) Sample.create_dora sample_store_consistent)
    as (_ & _ & _ & Hcreate & _).
  exact Hcreate.
Defined.

Lemma accounts_change_only_by_create_and_delete_witness :
  dom (storage (Instance.recover2 Instance.issued (Instance.verify 1000)).1)
    = dom Instance.users.
Proof.
  destruct (accounts_change_only_by_create_and_delete Instance.toKey
              Instance.getPasswordHash Instance.issued (Instance.verify 1000))
    as (_ & _ & Hstep2 & _).
  apply Hstep2, sample_store_consistent.
Defined.

Lemma admin_unknown_handle_witness :
  Sample.disable (boot Instance.users) (Instance.request (Instance.with_handle "nobody") 0)
    = (boot Instance.users, json 404 (error "User not found")) /\
  Sample.delete (boot Instance.users) (Instance.request (Instance.with_handle "nobody") 0)
    = (boot Instance.users, sendStatus 204).
Proof.
  destruct (admin_unknown_handle Instance.toKey Instance.DEFAULT_USER_handle
              (boot Instance.users) (Instance.request (Instance.with_handle "nobody") 0)
              eq_refl eq_refl eq_refl)
    as (Hdis & _ & _ & _ & Hdel).
  split; [exact Hdis|exact (Hdel eq_refl)].
Defined.

Lemma disabled_account_is_shut_out_witness :
  (Instance.login (Sample.disable (boot Instance.users) Sample.name_guest).1
     Sample.login_guest_later).2 = json 403 (error "User is disabled").
Proof.
  destruct (disabled_account_is_shut_out Instance.toKey Instance.getPasswordHash
              (boot Instance.users) Sample.name_guest Sample.login_guest_later
              eq_refl eq_refl)
    as (_ & Hlogin & _).
  apply Hlogin. by vm_compute.
Defined.

Lemma flag_round_trips_witness :
  Sample.enable (Sample.disable (boot Instance.users) Sample.name_guest).1 Sample.name_guest
    = (boot Instance.users, sendStatus 204).
Proof.
  destruct (flag_round_trips Instance.toKey (boot Instance.users)
              Sample.name_guest Sample.name_guest Instance.guest eq_refl eq_refl)
    as [Hround _].
  exact (Hround eq_refl eq_refl).
Defined.

Lemma deleted_account_is_gone_witness :
  (Instance.login (Sample.delete (boot Instance.users) Sample.name_guest).1
     Sample.login_guest_later).2 = json 403 (error "Incorrect credentials").
Proof.
  destruct (deleted_account_is_gone Instance.toKey Instance.getPasswordHash
              Instance.DEFAULT_USER_handle
              (boot Instance.users) Sample.name_guest Sample.login_guest_later
              eq_refl eq_refl)
    as (_ & _ & _ & _ & Hlogin & _).
  apply Hlogin. by vm_compute.
Defined.

Lemma create_stores_new_account_witness :
  exists u,
    storage (Instance.create (boot Instance.users) Sample.create_dora).1
      !! Instance.toKey (JStr "dora") = Some u /\
    User.enabled u = true /\ User.admin u = false.
Proof.
  destruct (create_stores_new_account Instance.toKey Instance.getPasswordHash
              Instance.getAllUserHandles Instance.slug
              (boot Instance.users) Sample.create_dora eq_refl)
    as (_ & _ & _ & (u & Hu & _ & He & Ha) & _).
  exists u. split; [exact Hu|]. split; [exact He|].
  destruct (User.admin u); [|reflexivity].
  destruct Ha as [Ha _]. specialize (Ha eq_refl). by vm_compute in Ha.
Defined.

Lemma create_never_replaces_witness :
  Instance.create (boot Instance.users) Sample.create_alice
    = (boot Instance.users, json 409 (error "User already exists")) /\
  storage (Instance.create (boot Instance.users) Sample.create_dora).1
    !! Instance.toKey (JStr "alice") = Some Instance.alice /\
  (Instance.create (boot Instance.users)
     (with_directoriesCreated Sample.create_dora false)).2 = sendStatus 500 /\
  is_Some (storage (Instance.create (boot Instance.users)
                      (with_directoriesCreated Sample.create_dora false)).1
             !! Instance.toKey (JStr "dora")).
Proof.
  split; [|split].
  - destruct (create_never_replaces Instance.toKey Instance.getPasswordHash
                Instance.getAllUserHandles Instance.slug
                (boot Instance.users) Sample.create_alice) as (_ & Htaken & _).
    apply Htaken; try reflexivity; [discriminate|].
    apply (bool_decide_unpack _). by vm_compute.
  - destruct (create_never_replaces Instance.toKey Instance.getPasswordHash
                Instance.getAllUserHandles Instance.slug
                (boot Instance.users) Sample.create_dora) as (_ & _ & Hkept & _).
    apply Hkept; [|reflexivity].
    intros [u Hu]. by vm_compute in Hu.
  - destruct (create_never_replaces Instance.toKey Instance.getPasswordHash
                Instance.getAllUserHandles Instance.slug
                (boot Instance.users) Sample.create_dora) as (_ & _ & _ & _ & Hfailed).
    exact (Hfailed eq_refl).
Defined.

Lemma create_then_login_witness :
  (Instance.login (Instance.create (boot Instance.users) Sample.create_dora).1
     Sample.login_dora).2 = json 200 (JObj [("handle", JStr "dora")]).
Proof.
  apply (create_then_login Instance.toKey Instance.getPasswordHash
           Instance.getAllUserHandles Instance.slug
           (boot Instance.users) Sample.create_dora Sample.login_dora);
    try reflexivity.
  by vm_compute.
Defined.

Lemma challenge_survives_delete_and_create_witness :
  (Instance.recover2
     (Instance.create
        (Sample.delete (Instance.recover1 (boot Instance.users) Sample.issue_guest).1
           Sample.name_guest).1
        Sample.create_guest).1
     Sample.verify_guest).2 = sendStatus 204.
Proof.
  apply (challenge_survives_delete_and_create Instance.toKey Instance.getPasswordHash
           Instance.getAllUserHandles Instance.slug Instance.DEFAULT_USER_handle
           (boot Instance.users) Sample.issue_guest Sample.name_guest
           Sample.create_guest Sample.verify_guest Instance.guest);
    try reflexivity.
  left. reflexivity.
Defined.

Lemma listing_hides_credentials_witness :
  exists u, u ∈ user_values Instance.KEY_PREFIX Instance.users /\
    ("alice" = User.handle u \/ "alice" ∈ string_values (User.name u) \/
     "alice" ∈ string_values (Sample.getUserAvatar (User.handle u))).
Proof.
  apply (proj2 (listing_hides_credentials Instance.KEY_PREFIX Sample.getUserAvatar
                  Sample.parseInt Sample.toLowerCase
                  (boot Instance.users) (Sample.page 1 20)) "alice").
  apply (bool_decide_unpack _). by vm_compute.
Defined.

Lemma listing_page_size_witness :
  Z.of_nat (length (Listing.users Sample.second_page)) = 1 /\
  Listing.totalPages Sample.second_page = 2.
Proof.
  destruct (listing_page_size Instance.KEY_PREFIX Sample.getUserAvatar
              Sample.parseInt Sample.toLowerCase
              (boot Instance.users) (Sample.page 2 2) Sample.second_page 2 2
              eq_refl ltac:(lia) eq_refl ltac:(lia) eq_refl)
    as (_ & _ & Hlen & Hpages).
  split; [exact Hlen|]. change (Listing.total Sample.second_page) with 3 in Hpages. lia.
Defined.

Lemma listing_pages_partition_witness :
  concat (map (fun p => match Sample.list_accounts (boot Instance.users)
                                (Query.Make (JNum p) (JNum 2) JUndefined) with
                        | Some l => Listing.users l
                        | None => []
                        end)
              (seqZ 1 2))
    = Sample.everyone.
Proof.
  apply (listing_pages_partition Instance.KEY_PREFIX Sample.getUserAvatar
           Sample.parseInt Sample.toLowerCase
           (boot Instance.users) JUndefined (JNum 2) 2 Sample.everyone).
  - reflexivity.
  - lia.
  - intros p _. reflexivity.
  - reflexivity.
Defined.

(** The storage gives the accounts as guest, alice, bob; the page has them
    as alice, bob, guest, the order in which they were created. *)
Lemma listing_sorted_witness :
  User.handle <$> user_values Instance.KEY_PREFIX (storage (boot Instance.users))
    = ["guest"; "alice"; "bob"] /\
  ViewModel.handle <$> Listing.users Sample.first_page = ["alice"; "bob"; "guest"] /\
  ViewModel.created <$> Listing.users Sample.first_page = [1; 2; 3] /\
  StronglySorted by_created (Listing.users Sample.first_page).
Proof.
  split; [reflexivity|]. split; [reflexivity|]. split; [reflexivity|].
  apply (listing_sorted Instance.KEY_PREFIX Sample.getUserAvatar
           Sample.parseInt Sample.toLowerCase
           (boot Instance.users) (Sample.page 1 20) Sample.first_page).
  reflexivity.
Defined.

Lemma listing_search_witness :
  Listing.total Sample.found_al = 1 /\
  Forall (fun v => matches Sample.toLowerCase (JStr "AL") v = Some true)
    (Listing.users Sample.found_al).
Proof.
  destruct (proj2 (listing_search Instance.KEY_PREFIX Sample.getUserAvatar
                     Sample.parseInt Sample.toLowerCase
                     (boot Instance.users) (Sample.search 1 20 "AL") eq_refl)
              Sample.found_al eq_refl) as [Htotal Hall].
  split; [exact Htotal|exact Hall].
Defined.

Lemma listing_total_is_count_witness :
  exists l enabled,
    Sample.list_accounts (boot Instance.users) (Sample.page 1 20) = Some l /\
    Listing.total l = 3 /\
    (get_count Instance.KEY_PREFIX (boot Instance.users) Instance.login_guest).2
      = json 200 (JObj [("total", JNum 3); ("enabled", JNum enabled)]).
Proof.
  destruct (listing_total_is_count Instance.KEY_PREFIX Sample.getUserAvatar
              Sample.parseInt Sample.toLowerCase
              (boot Instance.users) (Sample.page 1 20) Instance.login_guest eq_refl)
    as (l & enabled & Hl & _ & Htotal & Hcount).
  exists l, enabled. split; [exact Hl|].
  assert (Listing.total l = 3) as H3 by (rewrite Htotal; reflexivity).
  split; [exact H3|]. by rewrite <- H3.
Defined.

Lemma listing_negative_page_size_witness :
  length (Listing.users Sample.all_but_last) = 2%nat /\
  Listing.totalPages Sample.all_but_last <= 0.
Proof.
  destruct (listing_negative_page_size Instance.KEY_PREFIX Sample.getUserAvatar
              Sample.parseInt Sample.toLowerCase
              (boot Instance.users) (Sample.page 1 (-1)) Sample.all_but_last (-1)
              eq_refl eq_refl ltac:(lia) eq_refl)
    as (all & _ & _ & Hpages).
  split; [reflexivity|exact Hpages].
Defined.

Lemma non_string_name_breaks_search_witness :
  (Sample.get (boot Instance.users) (Sample.search 1 20 "al")).2
    = json 200 (Listing.to_json Sample.found_al) /\
  (Sample.get (Instance.create (boot Instance.users) Sample.create_seven).1
     (Sample.search 1 20 "al")).2 = sendStatus 500.
Proof.
  split; [reflexivity|].
  unfold Sample.get, Instance.create.
  rewrite (non_string_name_breaks_search Instance.KEY_PREFIX Instance.toKey
             Instance.getPasswordHash Instance.getAllUserHandles Instance.slug
             Sample.getUserAvatar Sample.parseInt Sample.toLowerCase
             (boot Instance.users) Sample.create_seven (Sample.search 1 20 "al")).
  - reflexivity.
  - reflexivity.
  - intros x. discriminate.
  - reflexivity.
  - reflexivity.
Defined.

Lemma pagination_clicks_stay_in_range_witness :
  Forall (fun b => forall t, Pagination.click b = Some t -> 1 <= t <= 10 /\ t <> 5)
    (Pagination.renderPagination 5 10).
Proof.
  apply (pagination_clicks_stay_in_range 5 10). lia.
Defined.

Lemma pagination_page_numbers_witness :
  Pagination.page_numbers (Pagination.renderPagination 5 10) = [1; 3; 4; 5; 6; 7; 10] /\
  StronglySorted Z.lt (Pagination.page_numbers (Pagination.renderPagination 5 10)).
Proof.
  split; [reflexivity|].
  apply (pagination_page_numbers 5 10). lia.
Defined.

(** ** Across the routes and the panel *)

Section PaginationAndListing.

Variable KEY_PREFIX : string.
Variable getUserAvatar : string -> jsval.
Variable parseInt : jsval -> option Z.
Variable toLowerCase : string -> string.

Abbreviation listing := (listing KEY_PREFIX getUserAvatar parseInt toLowerCase).

(** X29.  The pagination only leads to pages that hold accounts.  The
    panel has received a listing for a page size ps >= 1 whose page lies
    between 1 and its page count, and shows the pagination for it.  A
    click that changes the current page makes the panel ask for a page
    (same page size, same search) for which the server answers with at
    least one account, the requested page number, and the same page
    count.  (The page number is assumed to be read back by [parseInt] as
    it is.) *)
Theorem pagination_leads_to_accounts
    (s : State) (search size : jsval) (ps p : Z) (l : Listing.t)
    (b : Pagination.button) (t : Z) :
  parseInt size = Some ps -> 1 <= ps ->
  listing s (Query.Make (JNum p) size search) = Some l ->
  1 <= Listing.page l <= Listing.totalPages l ->
  b ∈ renderPagination (Listing.page l) (Listing.totalPages l) ->
  click b = Some t ->
  parseInt (JNum t) = Some t ->
  exists l',
    listing s (Query.Make (JNum t) size search) = Some l' /\
    Listing.users l' <> [] /\
    Listing.page l' = t /\
    Listing.totalPages l' = Listing.totalPages l.
Proof.
  intros Hps Hps1 Hl Hrange Hb Hclick Hparse.
  pose proof (renderPagination_clicks _ _ Hrange) as Hclicks.
  rewrite Forall_forall in Hclicks. destruct (Hclicks b Hb t Hclick) as [Ht _].
  apply listing_inv in Hl as (all & Hall & _ & _ & _ & Hsz & Htp). simpl in *.
  assert (parseInt_or parseInt size 20 = ps) as Hpso.
  { unfold parseInt_or. rewrite Hps.
    by replace (ps =? 0) with false by (symmetry; apply Z.eqb_neq; lia). }
  rewrite Hpso in *.
  pose proof (ceil_div_bounds (Z.of_nat (length all)) ps ltac:(lia)) as Hbounds.
  rewrite <- Htp in Hbounds.
  exists {| Listing.users :=
              slice all ((t - 1) * ps) ((t - 1) * ps + ps);
            Listing.total := Z.of_nat (length all);
            Listing.page := t;
            Listing.pageSize := ps;
            Listing.totalPages := ceil_div (Z.of_nat (length all)) ps |}.
  simpl. split_and!; try done.
  - unfold listing. simpl. rewrite Hall. unfold parseInt_or. rewrite Hps, Hparse.
    replace (ps =? 0) with false by (symmetry; apply Z.eqb_neq; lia).
    by replace (t =? 0) with false by (symmetry; apply Z.eqb_neq; lia).
  - rewrite slice_nonneg by nia. intros Hnil.
    apply (f_equal length) in Hnil. rewrite length_take, length_drop in Hnil.
    simpl in Hnil. nia.
Qed.

End PaginationAndListing.

Section CountAndCreate.

Variable KEY_PREFIX : string.
Variable toKey : jsval -> string.
Variable getPasswordHash : jsval -> string -> option string.
Variable getAllUserHandles : gmap string User.t -> list string.
Variable slug : jsval -> string.

Abbreviation post_create := (post_create toKey getPasswordHash getAllUserHandles slug).

Lemma filter_length_Permutation {A} (f : A -> bool) (l l' : list A) :
  l ≡ₚ l' -> length (List.filter f l) = length (List.filter f l').
Proof.
  induction 1 as [|x l l' _ IH|x y l|l l' l'' _ IH1 _ IH2]; simpl.
  - done.
  - destruct (f x); simpl; by rewrite IH.
  - by destruct (f x), (f y).
  - by rewrite IH1.
Qed.

Lemma user_values_insert (m : gmap string User.t) (k : string) (u : User.t) :
  m !! k = None -> startsWith k KEY_PREFIX = true ->
  user_values KEY_PREFIX (<[k := u]> m) ≡ₚ u :: user_values KEY_PREFIX m.
Proof.
  intros Hk Hp. unfold user_values.
  rewrite map_filter_insert_True by done.
  rewrite map_to_list_insert; [done|].
  apply map_lookup_filter_None_2. by left.
Qed.

(** X30.  Create and the public count.  After a create that was answered
    200, for a handle whose key was free and carries the prefix of the
    accounts, the count route reports one account more and one enabled
    account more than the storage held before. *)
Theorem create_adds_one_to_count (s : State) (req req' : Request) :
  status_of (post_create s req).2 = 200 ->
  storage s !! toKey (JStr (slug (Body.handle (body req)))) = None ->
  startsWith (toKey (JStr (slug (Body.handle (body req))))) KEY_PREFIX = true ->
  (get_count KEY_PREFIX (post_create s req).1 req').2 =
    json 200
      (JObj [("total",
              JNum (Z.of_nat (length (user_values KEY_PREFIX (storage s))) + 1));
             ("enabled",
              JNum (Z.of_nat (length (List.filter User.enabled
                                        (user_values KEY_PREFIX (storage s)))) + 1))]).
Proof.
  intros Hok Hfree Hprefix.
  destruct (post_create_created toKey getPasswordHash getAllUserHandles slug s req Hok)
    as (pw & _ & _ & _ & _ & _ & ->).
  unfold get_count. simpl.
  pose proof (user_values_insert (storage s) _
                {| User.handle := slug (Body.handle (body req));
                   User.name := Body.name (body req);
                   User.created := now req;
                   User.password := pw;
                   User.salt := randomSalt req;
                   User.admin := (length (getAllUserHandles (storage s)) =? 0)%nat;
                   User.enabled := true |} Hfree Hprefix) as Hperm.
  rewrite (filter_length_Permutation _ _ _ Hperm), (Permutation_length Hperm).
  simpl. do 4 f_equal; [f_equal|do 3 f_equal]; lia.
Qed.

End CountAndCreate.

Lemma pagination_leads_to_accounts_witness :
  exists l',
    Sample.list_accounts (boot Instance.users) (Query.Make (JNum 1) (JNum 2) JUndefined)
      = Some l' /\
    Listing.users l' <> [].
Proof.
  destruct (pagination_leads_to_accounts Instance.KEY_PREFIX Sample.getUserAvatar
              Sample.parseInt Sample.toLowerCase
              (boot Instance.users) JUndefined (JNum 2) 2 2 Sample.second_page
              (Pagination.Button (Pagination.Page 1) false false (Some 1)) 1
              eq_refl ltac:(lia) eq_refl ltac:(vm_compute; split; discriminate))
    as (l' & Hl' & Hne & _).
  - vm_compute. apply list_elem_of_further, list_elem_of_here.
  - reflexivity.
  - reflexivity.
  - exists l'. by split.
Defined.

Lemma create_adds_one_to_count_witness :
  (get_count Instance.KEY_PREFIX
     (Instance.create (boot Instance.users) Sample.create_dora).1 Instance.login_guest).2
  = json 200 (JObj [("total", JNum 4); ("enabled", JNum 3)]).
Proof.
  unfold Instance.create.
  rewrite (create_adds_one_to_count Instance.KEY_PREFIX Instance.toKey
             Instance.getPasswordHash Instance.getAllUserHandles Instance.slug
             (boot Instance.users) Sample.create_dora Instance.login_guest);
    reflexivity.
Defined.
